(** * runtipi: system lifecycle and session services

    A shallow embedding of
      - [src/server/services/system/system.service.ts] ([SystemServiceClass]:
        [getVersion], [update], [restart], [status]), and
      - the authentication service ([AuthServiceClass]: [login], [register],
        [me], [logout], [refreshToken], [isConfigured], [changePassword],
        [checkPasswordChangeRequest], [cancelPasswordChangeRequest]),
    together with the collaborators they call ([TipiCache], [TipiConfig],
    [EventDispatcher], [Logger], [fetch], the [semver] package, [uuid]'s
    [v4], [jwt.sign], the Prisma client on the user table of
    [prisma/schema.prisma], and the request file of the password change).

    Asynchronous methods are modelled as computations in a state-and-exception
    monad over a [World] record that holds everything the services can read
    or write. *)

From Stdlib Require Import ZArith NArith Ascii String List Bool Lia.
From Stdlib Require Import DecimalString.
From stdpp Require Import base option gmap strings.
Import ListNotations.

Local Open Scope string_scope.
Local Open Scope nat_scope.

(** ** Data model *)

(** [SYSTEM_STATUS = ['UPDATING', 'RESTARTING', 'RUNNING']]. *)
Inductive SystemStatus := UPDATING | RESTARTING | RUNNING.

#[global] Instance SystemStatus_eq_dec : EqDecision SystemStatus.
Proof. solve_decision. Defined.

(** The part of the object returned by [getConfig()] that the two services
    read: [version], [NODE_ENV], [status] and [jwtSecret]. *)
Record Config := mkConfig {
  version : string;
  NODE_ENV : string;
  status : SystemStatus;
  jwtSecret : string
}.

(** A value thrown by JavaScript code: [new Error(message)] raised by the
    services themselves, a [TypeError] raised by the runtime or by a library,
    and a rejection coming from the network layer. *)
Inductive Exn :=
| Error (message : string)
| TypeError (message : string)
| NetworkError (message : string).

(** One cache record: the stored string and, when the writer passed a TTL,
    the second at which the record stops being visible. *)
Record Entry := mkEntry {
  value : string;
  expires : option nat
}.

(** Everything the services observe or change. [now] is the clock of the
    cache's backing store, in seconds; [requests] is the list of URLs fetched
    so far (oldest first); [events] the events handed to the dispatcher
    (oldest first); [logged] the values passed to [Logger.error]. A call
    takes no time on that clock; time passes between calls ([elapse]). *)
Record World := mkWorld {
  config : Config;
  cache : gmap string Entry;
  now : nat;
  requests : list string;
  events : list string;
  logged : list Exn
}.

Definition with_config (c : Config) (w : World) : World :=
  mkWorld c (cache w) (now w) (requests w) (events w) (logged w).
Definition with_cache (m : gmap string Entry) (w : World) : World :=
  mkWorld (config w) m (now w) (requests w) (events w) (logged w).
Definition with_now (t : nat) (w : World) : World :=
  mkWorld (config w) (cache w) t (requests w) (events w) (logged w).
Definition with_requests (l : list string) (w : World) : World :=
  mkWorld (config w) (cache w) (now w) l (events w) (logged w).
Definition with_events (l : list string) (w : World) : World :=
  mkWorld (config w) (cache w) (now w) (requests w) l (logged w).
Definition with_logged (l : list Exn) (w : World) : World :=
  mkWorld (config w) (cache w) (now w) (requests w) (events w) l.

Definition with_status (s : SystemStatus) (c : Config) : Config :=
  mkConfig (version c) (NODE_ENV c) s (jwtSecret c).

(** Time passing between two calls: [d] seconds elapse and nothing else
    changes. *)
Definition elapse (d : nat) (w : World) : World := with_now (now w + d) w.

(** ** The monad of service calls *)

Inductive Result (A : Type) :=
| Ok (a : A)
| Throw (e : Exn).
Arguments Ok {A} a.
Arguments Throw {A} e.

Definition M (A : Type) : Type := World -> Result A * World.

Definition ret {A} (a : A) : M A := fun w => (Ok a, w).
Definition throw {A} (e : Exn) : M A := fun w => (Throw e, w).
Definition bind {A B} (m : M A) (k : A -> M B) : M B :=
  fun w => match m w with
           | (Ok a, w') => k a w'
           | (Throw e, w') => (Throw e, w')
           end.
(** [try { body } catch (e) { handler(e) }]: effects of [body] up to the
    throw are kept. *)
Definition try_catch {A} (body : M A) (handler : Exn -> M A) : M A :=
  fun w => match body w with
           | (Ok a, w') => (Ok a, w')
           | (Throw e, w') => handler e w'
           end.

Notation "x <- m ;; k" := (bind m (fun x => k))
  (at level 100, m at next level, right associativity).
Notation "m ;;; k" := (bind m (fun _ => k))
  (at level 100, right associativity).

Definition result_of {A} (r : Result A * World) : Result A := fst r.
Definition world_of {A} (r : Result A * World) : World := snd r.

(** ** JavaScript helpers *)

(** Truthiness of a [string | null | undefined] value: [null], [undefined]
    and the empty string are falsy. *)
Definition truthy (o : option string) : bool :=
  match o with
  | None => false
  | Some s => negb (String.eqb s "")
  end.

(** [s.replace('v', '')]: with a string pattern, [String.prototype.replace]
    removes the first occurrence of the pattern, wherever it is. *)
Fixpoint replace_v (s : string) : string :=
  match s with
  | EmptyString => EmptyString
  | String a r => if Ascii.eqb a "v"%char then r else String a (replace_v r)
  end.

(** [x || '']. *)
Definition or_empty (o : option string) : string :=
  match o with
  | Some s => if truthy (Some s) then s else ""
  | None => ""
  end.

(** ** Collaborators *)

(** Modelled from the spec: [TipiConfig] ([getConfig], [setConfig]) is not
    among the sources. Spec 4.3 and 9: the system status is a single record
    behind a narrow accessor, written last-write-wins. *)
Definition getConfig : M Config := fun w => (Ok (config w), w).
Definition setConfig_status (s : SystemStatus) : M unit :=
  fun w => (Ok tt, with_config (with_status s (config w)) w).

(** Modelled from the spec: [TipiCache] is not among the sources. Spec 4.4:
    [get(key) -> value | absent], [set(key, value, ttlSeconds?) -> ack],
    [delete(key) -> ack]; the TTL is enforced by the backing store and
    absence after expiry is indistinguishable from never-set. A record
    written with a TTL of [t] seconds at second [n] is visible at every
    second before [n + t] and absent from [n + t] on. The spec gives no
    lifetime for a record written without a TTL: it is kept with
    [expires = None]. *)
Definition alive (t : nat) (e : Entry) : bool :=
  match expires e with
  | None => true
  | Some x => t <? x
  end.

Definition cache_lookup (t : nat) (m : gmap string Entry) (key : string)
  : option string :=
  match m !! key with
  | Some e => if alive t e then Some (value e) else None
  | None => None
  end.

Definition cache_get (key : string) : M (option string) :=
  fun w => (Ok (cache_lookup (now w) (cache w) key), w).

Definition cache_set (key val : string) (ttl : option nat) : M unit :=
  fun w => (Ok tt,
            with_cache (<[key := mkEntry val (option_map (Nat.add (now w)) ttl)]>
                          (cache w)) w).

Definition cache_del (key : string) : M unit :=
  fun w => (Ok tt, with_cache (delete key (cache w)) w).

(** Modelled from the spec: [EventDispatcher] is not among the sources.
    Spec 4.5: [dispatch(eventName) -> immediate ack], fire and forget. *)
Definition dispatchEventAsync (event : string) : M unit :=
  fun w => (Ok tt, with_events (events w ++ [event]) w).

(** [Logger.error(e)]. *)
Definition Logger_error (e : Exn) : M unit :=
  fun w => (Ok tt, with_logged (logged w ++ [e]) w).

(** What the release-metadata endpoint does when it is asked: the request
    itself is rejected, the body is not JSON, or the body parses to an
    object whose [name] is a string ([Some]) or is not ([None]). *)
Inductive FetchOutcome :=
| FetchRejected (message : string)
| JsonRejected (message : string)
| Release (name : option string).

Definition releases_url : string :=
  "https://api.github.com/repos/meienberger/runtipi/releases/latest".

(** [await fetch(url)] followed by [await data.json()]; [o] is the answer of
    the endpoint to this request. The request is recorded when it is sent. *)
Definition fetch_json (url : string) (o : FetchOutcome) : M (option string) :=
  fun w =>
    let w' := with_requests (requests w ++ [url]) w in
    match o with
    | FetchRejected msg => (Throw (NetworkError msg), w')
    | JsonRejected msg => (Throw (NetworkError msg), w')
    | Release name => (Ok name, w')
    end.

Record VersionInfo := mkVersionInfo {
  current : string;
  latest : option string
}.

(** ** The semver package

    [semver] is a dependency of the repository, not part of it. The model
    follows the package's strict mode: its [FULL] pattern
    [^v?MAJOR.MINOR.PATCH(-PRERELEASE)?(+BUILD)?$] for parsing, and
    [compareMain] followed by [comparePre] for ordering. *)
Module Semver.

(** A prerelease identifier as the constructor keeps it: a number, for an
    all-digit identifier below [MAX_SAFE_INTEGER], or the text. *)
Inductive Identifier :=
| NumId (n : N)
| StrId (s : string).

Record SemVer := mkSemVer {
  major : N;
  minor : N;
  patch : N;
  prerelease : list Identifier;
  build : list string
}.

Definition MAX_LENGTH : nat := 256.
Definition MAX_SAFE_INTEGER : N := 9007199254740991.

Definition is_digit (c : ascii) : bool :=
  let n := nat_of_ascii c in (48 <=? n) && (n <=? 57).
Definition is_letter_or_dash (c : ascii) : bool :=
  let n := nat_of_ascii c in
  ((65 <=? n) && (n <=? 90)) || ((97 <=? n) && (n <=? 122)) || (n =? 45).
Definition is_idchar (c : ascii) : bool := is_digit c || is_letter_or_dash c.
Definition is_space (c : ascii) : bool :=
  let n := nat_of_ascii c in (n =? 32) || ((9 <=? n) && (n <=? 13)).

Fixpoint all_chars (p : ascii -> bool) (s : string) : bool :=
  match s with
  | EmptyString => true
  | String c r => p c && all_chars p r
  end.

(** The longest prefix of [s] whose characters satisfy [p], and the rest. *)
Fixpoint span (p : ascii -> bool) (s : string) : string * string :=
  match s with
  | EmptyString => (EmptyString, EmptyString)
  | String c r =>
      if p c then let '(a, b) := span p r in (String c a, b)
      else (EmptyString, s)
  end.

Fixpoint drop_while (p : ascii -> bool) (s : string) : string :=
  match s with
  | EmptyString => EmptyString
  | String c r => if p c then drop_while p r else s
  end.

Fixpoint rev_string (s acc : string) : string :=
  match s with
  | EmptyString => acc
  | String c r => rev_string r (String c acc)
  end.

(** [s.trim()], on ASCII white space. *)
Definition trim (s : string) : string :=
  let s1 := drop_while is_space s in
  rev_string (drop_while is_space (rev_string s1 EmptyString)) EmptyString.

(** [s.split(sep)] for a one-character separator. *)
Fixpoint split_on (sep : ascii) (s : string) : list string :=
  match s with
  | EmptyString => [EmptyString]
  | String c r =>
      if Ascii.eqb c sep then EmptyString :: split_on sep r
      else match split_on sep r with
           | h :: t => String c h :: t
           | [] => [String c EmptyString]
           end
  end.

Fixpoint digits_value (s : string) (acc : N) : N :=
  match s with
  | EmptyString => acc
  | String c r => digits_value r (acc * 10 + (N_of_ascii c - 48))%N
  end.

(** [NUMERICIDENTIFIER = 0|[1-9]\d*]. *)
Definition numeric_identifier (s : string) : option N :=
  match s with
  | EmptyString => None
  | String c r =>
      if negb (all_chars is_digit s) then None
      else if Ascii.eqb c "0"%char && negb (String.eqb r "") then None
      else Some (digits_value s 0%N)
  end.

(** [PRERELEASEIDENTIFIER]: a numeric identifier, or a non-empty run of
    letters, digits and dashes that is not all digits. The constructor
    turns an all-digit identifier into a number when its value is below
    [MAX_SAFE_INTEGER] and keeps it as text otherwise. *)
Definition prerelease_identifier (s : string) : option Identifier :=
  match s with
  | EmptyString => None
  | String _ _ =>
      if negb (all_chars is_idchar s) then None
      else if all_chars is_digit s then
        match numeric_identifier s with
        | Some n => if (n <? MAX_SAFE_INTEGER)%N then Some (NumId n)
                    else Some (StrId s)
        | None => None
        end
      else Some (StrId s)
  end.

(** [BUILDIDENTIFIER = [a-zA-Z0-9-]+]. *)
Definition build_identifier (s : string) : option string :=
  match s with
  | EmptyString => None
  | String _ _ => if all_chars is_idchar s then Some s else None
  end.

Fixpoint map_all {A B} (f : A -> option B) (l : list A) : option (list B) :=
  match l with
  | [] => Some []
  | x :: r =>
      match f x, map_all f r with
      | Some y, Some ys => Some (y :: ys)
      | _, _ => None
      end
  end.

Definition parse_build (s : string) : option (list string) :=
  match s with
  | EmptyString => Some []
  | String c r =>
      if Ascii.eqb c "+"%char then map_all build_identifier (split_on "."%char r)
      else None
  end.

Definition parse_tail (s : string) : option (list Identifier * list string) :=
  match s with
  | String c r =>
      if Ascii.eqb c "-"%char then
        let '(pre, rest) := span (fun x => negb (Ascii.eqb x "+"%char)) r in
        match map_all prerelease_identifier (split_on "."%char pre),
              parse_build rest with
        | Some p, Some b => Some (p, b)
        | _, _ => None
        end
      else option_map (pair []) (parse_build s)
  | EmptyString => Some ([], [])
  end.

(** After a component, the text must go on with a dot. *)
Definition after_dot (s : string) : option string :=
  match s with
  | String c r => if Ascii.eqb c "."%char then Some r else None
  | EmptyString => None
  end.

(** [version.trim().match(re[t.FULL])]: what the pattern captures, the three
    numbers, the prerelease identifiers and the build identifiers, or [None]
    when the text does not match. *)
Definition match_full (v : string)
  : option (N * N * N * list Identifier * list string) :=
  let s := trim v in
  let s := match s with
           | String c r => if Ascii.eqb c "v"%char then r else s
           | EmptyString => s
           end in
  let '(ma, s1) := span is_digit s in
  let '(mi, s2) := span is_digit (default EmptyString (after_dot s1)) in
  let '(pa, s3) := span is_digit (default EmptyString (after_dot s2)) in
  match after_dot s1, after_dot s2 with
  | Some _, Some _ =>
      match numeric_identifier ma, numeric_identifier mi,
            numeric_identifier pa, parse_tail s3 with
      | Some a, Some b, Some c, Some (p, bl) => Some (a, b, c, p, bl)
      | _, _, _, _ => None
      end
  | _, _ => None
  end.

(** [new SemVer(version)] on a string: the version, or the [TypeError] the
    constructor throws, in the order of its checks: the length, the
    pattern, then the size of the major, minor and patch numbers. *)
Definition construct (v : string) : Exn + SemVer :=
  if MAX_LENGTH <? String.length v then
    inl (TypeError "version is longer than 256 characters")
  else
    match match_full v with
    | None => inl (TypeError ("Invalid Version: " +:+ v))
    | Some (a, b, c, p, bl) =>
        if (MAX_SAFE_INTEGER <? a)%N then inl (TypeError "Invalid major version")
        else if (MAX_SAFE_INTEGER <? b)%N then inl (TypeError "Invalid minor version")
        else if (MAX_SAFE_INTEGER <? c)%N then inl (TypeError "Invalid patch version")
        else inr (mkSemVer a b c p bl)
    end.


(** The double nearest to an integer (ties to even): what unary [+] makes
    of a string of digits. Integers below [2^53] are doubles; the strings
    the constructor accepts are too short to reach the largest double. *)
Definition to_double (n : N) : N :=
  if (n <? 2 ^ 53)%N then n
  else
    let e := (N.log2 n - 52)%N in
    let q := N.shiftr n e in
    let r := N.land n (N.ones e) in
    let half := N.shiftl 1 (e - 1) in
    let q' := if (half <? r)%N || ((r =? half)%N && N.odd q)
              then (q + 1)%N else q in
    N.shiftl q' e.

(** [/^[0-9]+$/.test(a)]. *)
Definition is_numeric (a : Identifier) : bool :=
  match a with
  | NumId _ => true
  | StrId s => negb (String.eqb s "") && all_chars is_digit s
  end.

(** [+a] for an identifier that passes the test. *)
Definition to_number (a : Identifier) : N :=
  match a with
  | NumId n => to_double n
  | StrId s => to_double (digits_value s 0%N)
  end.

(** [a === b] on identifiers: same type and same value. *)
Definition Identifier_eqb (a b : Identifier) : bool :=
  match a, b with
  | NumId x, NumId y => (x =? y)%N
  | StrId x, StrId y => String.eqb x y
  | _, _ => false
  end.

(** [compareIdentifiers]: two identifiers made of digits are compared as
    numbers, after [+]; otherwise equal identifiers are equal, an identifier
    made of digits comes before one that is not, and two that are not are
    compared as strings, by code units. *)
Definition compareIdentifiers (a b : Identifier) : comparison :=
  if is_numeric a && is_numeric b then (to_number a ?= to_number b)%N
  else if Identifier_eqb a b then Eq
  else if is_numeric a then Lt
  else if is_numeric b then Gt
  else
    match a, b with
    | StrId x, StrId y =>
        match String.compare x y with Lt => Lt | _ => Gt end
    | _, _ => Gt
    end.

(** [a || b] on comparison results. *)
Definition or_else (c d : comparison) : comparison :=
  match c with Eq => d | _ => c end.

Definition compareMain (a b : SemVer) : comparison :=
  or_else ((major a ?= major b)%N)
    (or_else ((minor a ?= minor b)%N) ((patch a ?= patch b)%N)).

(** The [do ... while (++i)] loop of [comparePre]: identical identifiers
    are skipped, and the first pair that is not identical decides, also
    when [compareIdentifiers] answers 0 for it. *)
Fixpoint comparePre_loop (a b : list Identifier) : comparison :=
  match a, b with
  | [], [] => Eq
  | _ :: _, [] => Gt
  | [], _ :: _ => Lt
  | x :: a', y :: b' =>
      if Identifier_eqb x y then comparePre_loop a' b'
      else compareIdentifiers x y
  end.

(** A version without prerelease is greater than one with. *)
Definition comparePre (a b : SemVer) : comparison :=
  match prerelease a, prerelease b with
  | _ :: _, [] => Lt
  | [], _ :: _ => Gt
  | [], [] => Eq
  | pa, pb => comparePre_loop pa pb
  end.

Definition compare (a b : SemVer) : comparison :=
  or_else (compareMain a b) (comparePre a b).

Definition is_gt (c : comparison) : bool :=
  match c with Gt => true | _ => false end.
Definition is_eq (c : comparison) : bool :=
  match c with Eq => true | _ => false end.

(** The constructor as a computation. *)
Definition new (v : string) : M SemVer :=
  match construct v with
  | inr x => ret x
  | inl e => throw e
  end.

(** [semver.gt(a, b)], [semver.eq(a, b)]: both arguments are parsed,
    the first one first. *)
Definition gt (a b : string) : M bool :=
  x <- new a ;; y <- new b ;; ret (is_gt (compare x y)).
Definition eq (a b : string) : M bool :=
  x <- new a ;; y <- new b ;; ret (is_eq (compare x y)).
(** [semver.major(a)]. *)
Definition major_of (a : string) : M N :=
  x <- new a ;; ret (major x).

End Semver.

(** ** SystemServiceClass *)
Module SystemService.

(** [getVersion]; [o] is the answer the release endpoint gives if the
  lookup reaches it. *)
Definition getVersion (o : FetchOutcome) : M VersionInfo :=
try_catch
  (cached <- cache_get "latestVersion" ;;
   ver <-
     (if negb (truthy cached) then
        release_name <- fetch_json releases_url o ;;
        match release_name with
        | None =>
            throw (TypeError "Cannot read properties of undefined (reading 'replace')")
        | Some name =>
            let ver := replace_v name in
            cache_set "latestVersion" (or_empty (Some (replace_v ver)))
                      (Some (60 * 60)) ;;;
            ret (Some ver)
        end
      else ret cached) ;;
   cfg <- getConfig ;;
   ret (mkVersionInfo (version cfg) (option_map replace_v ver)))
  (fun e =>
     Logger_error e ;;;
     cfg <- getConfig ;;
     ret (mkVersionInfo (version cfg) None)).

(** [update]: the version lookup comes first, then the guards in the order
    of the source. [o] is the answer the release endpoint gives if the
    lookup reaches it. [!latest] holds of [undefined] and of the empty
    string. *)
Definition update (o : FetchOutcome) : M bool :=
  v <- getVersion o ;;
  cfg <- getConfig ;;
  if String.eqb (NODE_ENV cfg) "development" then
    throw (Error "Cannot update in development mode")
  else
    match latest v with
    | None => throw (Error "Could not get latest version")
    | Some l =>
        if negb (truthy (Some l)) then
          throw (Error "Could not get latest version")
        else
          newer <- Semver.gt (current v) l ;;
          if newer then
            throw (Error "Current version is newer than latest version")
          else
            same <- Semver.eq (current v) l ;;
            if same then
              throw (Error "Current version is already up to date")
            else
              mc <- Semver.major_of (current v) ;;
              ml <- Semver.major_of l ;;
              if negb (mc =? ml)%N then
                throw (Error "The major version has changed. Please update manually (instructions on GitHub)")
              else
                setConfig_status UPDATING ;;;
                dispatchEventAsync "update" ;;;
                ret true
    end.

Definition restart : M bool :=
  cfg <- getConfig ;;
  if String.eqb (NODE_ENV cfg) "development" then
    throw (Error "Cannot restart in development mode")
  else
    setConfig_status RESTARTING ;;;
    dispatchEventAsync "restart" ;;;
    ret true.

Definition status : M SystemStatus :=
  cfg <- getConfig ;; ret (status cfg).

End SystemService.

(** ** AuthServiceClass *)

(** A token as [jwt.sign(payload, secret, options)] builds it, represented
    by what was signed: the payload [{ id, session }], the secret and the
    [expiresIn] option. *)
Record Jwt := mkJwt {
  jwt_id : string;
  jwt_session : string;
  jwt_secret : string;
  jwt_expiresIn : string
}.

Record TokenResponse := mkTokenResponse { token : Jwt }.

Module AuthService.

(** [logout(session?)]; [if (session)] passes for a non-empty string only. *)
Definition logout (session : option string) : M bool :=
  match session with
  | Some s =>
      if truthy (Some s) then cache_del s ;;; ret true
      else ret true
  | None => ret true
  end.

(** [refreshToken(session?)]; [v4] is the identifier that [uuid]'s [v4()]
    hands out in this call. [!session] and [!userId] hold of [undefined],
    [null] and the empty string. *)
Definition refreshToken (v4 : string) (session : option string)
  : M (option TokenResponse) :=
  match session with
  | None => ret None
  | Some s =>
      if negb (truthy (Some s)) then ret None
      else
        userId <- cache_get s ;;
        match userId with
        | None => ret None
        | Some u =>
            if negb (truthy (Some u)) then ret None
            else
              cache_set s u (Some 6) ;;;
              let newSession := v4 in
              cfg <- getConfig ;;
              let token := mkJwt u newSession (jwtSecret cfg) "1d" in
              cache_set newSession u None ;;;
              ret (Some (mkTokenResponse token))
        end
  end.

End AuthService.

(** ** The error kinds of the specification, as the services raise them *)

Definition EnvironmentRestricted_update : Exn :=
  Error "Cannot update in development mode".
Definition EnvironmentRestricted_restart : Exn :=
  Error "Cannot restart in development mode".
Definition VersionUnavailable : Exn := Error "Could not get latest version".
Definition DowngradeRejected : Exn :=
  Error "Current version is newer than latest version".
Definition AlreadyUpToDate : Exn :=
  Error "Current version is already up to date".
Definition MajorVersionMismatch : Exn :=
  Error "The major version has changed. Please update manually (instructions on GitHub)".

(** ** Definitions used in the statements *)

Definition failed {A} (r : Result A) : bool :=
  match r with Throw _ => true | Ok _ => false end.

(** The value the lookup throws inside [getVersion] when it is made and
    fails: a rejected request, a body that is not JSON, or a body without a
    string [name] (reading [.replace] of it throws). *)
Definition lookup_error (o : FetchOutcome) : option Exn :=
  match o with
  | FetchRejected msg => Some (NetworkError msg)
  | JsonRejected msg => Some (NetworkError msg)
  | Release None =>
      Some (TypeError "Cannot read properties of undefined (reading 'replace')")
  | Release (Some _) => None
  end.

(** The cache holds nothing usable under [latestVersion]: no record, an
    expired record, or the empty string. *)
Definition cache_miss (w : World) : Prop :=
  truthy (cache_lookup (now w) (cache w) "latestVersion") = false.

(** The world after one request to the release endpoint. *)
Definition requested (w : World) : World :=
  with_requests (requests w ++ [releases_url]) w.

Definition set_status (s : SystemStatus) (w : World) : World :=
  with_config (with_status s (config w)) w.


(** The decision [update] takes once the versions are resolved, as a table:
    environment first, then availability of [latest], then validity of the
    two version strings, then their order. *)
Definition update_decision (env : string) (v : VersionInfo) : Result bool :=
  if String.eqb env "development" then Throw EnvironmentRestricted_update
  else
    match latest v with
    | None => Throw VersionUnavailable
    | Some l =>
        if String.eqb l "" then Throw VersionUnavailable
        else
          match Semver.construct (current v), Semver.construct l with
          | inl e, _ => Throw e
          | inr _, inl e => Throw e
          | inr vc, inr vl =>
              match Semver.compare vc vl with
              | Gt => Throw DowngradeRejected
              | Eq => Throw AlreadyUpToDate
              | Lt =>
                  if (Semver.major vc =? Semver.major vl)%N then Ok true
                  else Throw MajorVersionMismatch
              end
          end
    end.

(** The world after a successful [update]: status written, event queued. *)
Definition update_published (w : World) : World :=
  with_events (events w ++ ["update"]) (set_status UPDATING w).

(** *** Precedence of versions, in the words of the Semantic Versioning
    standard, to compare [Semver.compare] with. *)







(** The texts of the [TypeError]s the constructor of [semver] throws. *)
Definition semver_rejection (text : string) : Prop :=
  (exists v, text = "Invalid Version: " +:+ v) \/
  text = "version is longer than 256 characters" \/
  text = "Invalid major version" \/
  text = "Invalid minor version" \/
  text = "Invalid patch version".

(** Stripping a leading version prefix, in the words of the specification:
    a [v] in first position goes, nothing else changes. *)
Definition strip_leading_v (s : string) : string :=
  match s with
  | String c r => if Ascii.eqb c "v"%char then r else s
  | EmptyString => s
  end.

Fixpoint has_v (s : string) : bool :=
  match s with
  | EmptyString => false
  | String c r => Ascii.eqb c "v"%char || has_v r
  end.

(** What a reader of the cache sees under [key], [d] seconds after [w]. *)
Definition session_after (d : nat) (w : World) (key : string) : option string :=
  cache_lookup (now (elapse d w)) (cache (elapse d w)) key.

(** ** Sample worlds *)

Definition pinned (l : string) (until : nat) : gmap string Entry :=
  {["latestVersion" := mkEntry l (Some until)]}.

Definition sample_world (env : string) (st : SystemStatus) (cur : string)
  (c : gmap string Entry) : World :=
  mkWorld (mkConfig cur env st "secret") c 100 [] [] [].

Definition offline : FetchOutcome := FetchRejected "getaddrinfo ENOTFOUND".

Definition sessions (s u : string) : gmap string Entry :=
  {[s := mkEntry u None]}.

(** ** Sequences of calls *)

(** One call of the system service, or time passing between two calls. *)
Inductive SystemCall :=
| CallGetVersion (o : FetchOutcome)
| CallUpdate (o : FetchOutcome)
| CallRestart
| CallStatus
| SystemWait (d : nat).

Definition system_call (c : SystemCall) (w : World) : World :=
  match c with
  | CallGetVersion o => world_of (SystemService.getVersion o w)
  | CallUpdate o => world_of (SystemService.update o w)
  | CallRestart => world_of (SystemService.restart w)
  | CallStatus => world_of (SystemService.status w)
  | SystemWait d => elapse d w
  end.

Definition system_calls (cs : list SystemCall) (w : World) : World :=
  fold_left (fun w c => system_call c w) cs w.

(** One call of the static session methods, or time passing. *)
Inductive SessionCall :=
| CallLogout (session : option string)
| CallRefreshToken (v4 : string) (session : option string)
| SessionWait (d : nat).

Definition session_call (c : SessionCall) (w : World) : World :=
  match c with
  | CallLogout s => world_of (AuthService.logout s w)
  | CallRefreshToken v4 s => world_of (AuthService.refreshToken v4 s w)
  | SessionWait d => elapse d w
  end.

Definition session_calls (cs : list SessionCall) (w : World) : World :=
  fold_left (fun w c => session_call c w) cs w.

(** Some live session record is bound to user [u]. *)
Definition has_session (w : World) (u : string) : Prop :=
  exists key, cache_lookup (now w) (cache w) key = Some u.

(** Refreshing in a row: [s] into the first of [ids], that one into the
    next, and so on, with no time passing; the results of the calls, in
    order, and the world at the end. *)
Fixpoint refresh_chain (s : string) (ids : list string) (w : World)
  : list (Result (option TokenResponse)) * World :=
  match ids with
  | [] => ([], w)
  | s' :: rest =>
      let '(r, w') := AuthService.refreshToken s' (Some s) w in
      let '(rs, w'') := refresh_chain s' rest w' in
      (r :: rs, w'')
  end.

(** A refresh that succeeded for user [u]. *)
Definition refreshed_for (u : string) (r : Result (option TokenResponse)) : Prop :=
  exists t, r = Ok (Some t) /\ jwt_id (token t) = u.

(** The events the system service publishes. *)
Definition system_event (e : string) : Prop := e = "update" \/ e = "restart".

(** ** The user table, the request file and the instance methods of
    AuthServiceClass *)

(** A row of [model User] of [prisma/schema.prisma], without the two
    timestamp columns, which the service never reads. *)
Module Db.
Record User := mkUser {
  id : nat;
  username : string;
  password : string;
  operator : bool
}.
End Db.

(** What the instance methods work on besides the [World]: the rows of the
    user table in the order the database returns them, the last value the
    [autoincrement()] sequence of [User.id] has handed out, and whether the
    file [/runtipi/state/password-change-request] exists. *)
Record Store := mkStore {
  world : World;
  users : list Db.User;
  user_id_seq : nat;
  password_change_request : bool
}.

Definition with_world (w : World) (s : Store) : Store :=
  mkStore w (users s) (user_id_seq s) (password_change_request s).
Definition with_users (l : list Db.User) (s : Store) : Store :=
  mkStore (world s) l (user_id_seq s) (password_change_request s).
Definition with_user_id_seq (n : nat) (s : Store) : Store :=
  mkStore (world s) (users s) n (password_change_request s).
Definition with_password_change_request (b : bool) (s : Store) : Store :=
  mkStore (world s) (users s) (user_id_seq s) b.

Definition MS (A : Type) : Type := Store -> Result A * Store.

Definition retS {A} (a : A) : MS A := fun s => (Ok a, s).
Definition throwS {A} (e : Exn) : MS A := fun s => (Throw e, s).
Definition bindS {A B} (m : MS A) (k : A -> MS B) : MS B :=
  fun s => match m s with
           | (Ok a, s') => k a s'
           | (Throw e, s') => (Throw e, s')
           end.
(** A computation on the [World] run inside a [Store]. *)
Definition lift {A} (m : M A) : MS A :=
  fun s => let '(r, w) := m (world s) in (r, with_world w s).

Declare Scope store_scope.
Delimit Scope store_scope with store.
Notation "x <- m ;; k" := (bindS m (fun x => k))
  (at level 100, m at next level, right associativity) : store_scope.
Notation "m ;;; k" := (bindS m (fun _ => k))
  (at level 100, right associativity) : store_scope.

(** The functions the service takes from the JavaScript runtime and from the
    [validator] and [argon2] packages: [s.trim()], [s.toLowerCase()],
    [validator.isEmail(s)] and [argon2.verify(hash, password)], which
    rejects when [hash] is not an encoded hash. *)
Record Libraries := mkLibraries {
  trim : string -> string;
  toLowerCase : string -> string;
  isEmail : string -> bool;
  argon2_verify : string -> string -> Result bool
}.

(** [n.toString()] for a non-negative integer: its decimal digits. *)
Definition Number_toString (n : nat) : string :=
  NilEmpty.string_of_uint (Nat.to_uint n).

(** The queries of the Prisma client on the user table. [findUnique] on a
    unique column and [findFirst] return the first matching row or [null];
    [create] takes the next value of the sequence as [id] (the value is
    consumed even when the insertion is refused) and refuses a row that
    breaks the uniqueness of [id] or [username]; [update] rejects when no
    row has the given [id]. *)
Definition findUnique_username (name : string) : MS (option Db.User) :=
  fun s => (Ok (List.find (fun u => String.eqb (Db.username u) name) (users s)), s).

Definition findUnique_id (i : nat) : MS (option Db.User) :=
  fun s => (Ok (List.find (fun u => Nat.eqb (Db.id u) i) (users s)), s).

Definition findFirst_operator : MS (option Db.User) :=
  fun s => (Ok (List.find Db.operator (users s)), s).

Definition count_operator : MS nat :=
  fun s => (Ok (length (List.filter Db.operator (users s))), s).

Definition create_user (name hash : string) (op : bool) : MS Db.User :=
  fun s =>
    let i := S (user_id_seq s) in
    let s' := with_user_id_seq i s in
    if existsb (fun u => String.eqb (Db.username u) name || Nat.eqb (Db.id u) i)
               (users s)
    then (Throw (Error "Unique constraint failed"), s')
    else
      let row := Db.mkUser i name hash op in
      (Ok row, with_users (users s ++ [row]) s').

Definition set_password (i : nat) (hash : string) (u : Db.User) : Db.User :=
  if Nat.eqb (Db.id u) i
  then Db.mkUser (Db.id u) (Db.username u) hash (Db.operator u)
  else u.

Definition update_password (i : nat) (hash : string) : MS unit :=
  fun s =>
    if existsb (fun u => Nat.eqb (Db.id u) i) (users s)
    then (Ok tt, with_users (List.map (set_password i hash) (users s)) s)
    else (Throw (Error "Record to update not found"), s).

(** [fileExists] and [unlinkFile] of [common/fs.helpers] on the request
    file, read as [fs.existsSync] and [fs.promises.unlink]: removing a file
    that is not there rejects. *)
Definition fileExists_request : MS bool :=
  fun s => (Ok (password_change_request s), s).

Definition unlinkFile_request : MS unit :=
  fun s =>
    if password_change_request s
    then (Ok tt, with_password_change_request false s)
    else (Throw (Error "ENOENT: no such file or directory"), s).

(** A token signed by [login] or [register]: the payload [{ id, session }]
    with [id] a number, the secret and the [expiresIn] option. *)
Record SessionJwt := mkSessionJwt {
  payload_id : nat;
  payload_session : string;
  signing_secret : string;
  expiresIn : string
}.

Record UsernamePasswordInput := mkInput {
  input_username : string;
  input_password : string
}.

Module AuthServiceClass.

Local Open Scope store_scope.

(** [login(input)]; [v4] is the identifier [v4()] hands out in this call. *)
Definition login (L : Libraries) (v4 : string) (input : UsernamePasswordInput)
  : MS SessionJwt :=
  let password := input_password input in
  let username := input_username input in
  user <- findUnique_username (toLowerCase L (trim L username)) ;;
  match user with
  | None => throwS (Error "User not found")
  | Some user =>
      isPasswordValid <- (fun s => (argon2_verify L (Db.password user) password, s)) ;;
      if negb isPasswordValid then throwS (Error "Wrong password")
      else
        let session := v4 in
        cfg <- lift getConfig ;;
        let token := mkSessionJwt (Db.id user) session (jwtSecret cfg) "7d" in
        lift (cache_set session (Number_toString (Db.id user)) None) ;;;
        retS token
  end.

(** [register(input)]; [v4] is as in [login], [hash] is the encoded hash
    that [argon2.hash(password)] produces in this call. *)
Definition register (L : Libraries) (v4 hash : string)
  (input : UsernamePasswordInput) : MS SessionJwt :=
  registeredUser <- findFirst_operator ;;
  match registeredUser with
  | Some _ =>
      throwS (Error "There is already an admin user. Please login to create a new user from the admin panel.")
  | None =>
      let password := input_password input in
      let username := input_username input in
      let email := toLowerCase L (trim L username) in
      if negb (truthy (Some username)) || negb (truthy (Some password)) then
        throwS (Error "Missing email or password")
      else if (String.length username <? 3) || negb (isEmail L email) then
        throwS (Error "Invalid username")
      else
        user <- findUnique_username email ;;
        match user with
        | Some _ => throwS (Error "User already exists")
        | None =>
            newUser <- create_user email hash true ;;
            let session := v4 in
            cfg <- lift getConfig ;;
            let token := mkSessionJwt (Db.id newUser) session (jwtSecret cfg) "1d" in
            lift (cache_set session (Number_toString (Db.id newUser)) None) ;;;
            retS token
        end
  end.

(** [me(userId)]: [!userId] holds of [undefined] and of [0]; the result
    carries the selected columns [id] and [username]. *)
Definition me (userId : option nat) : MS (option (nat * string)) :=
  match userId with
  | None => retS None
  | Some 0 => retS None
  | Some i =>
      user <- findUnique_id i ;;
      match user with
      | None => retS None
      | Some u => retS (Some (Db.id u, Db.username u))
      end
  end.

Definition isConfigured : MS bool :=
  count <- count_operator ;; retS (0 <? count).

Definition checkPasswordChangeRequest : MS bool :=
  exists_ <- fileExists_request ;;
  if exists_ then retS true else retS false.

(** [changePassword(params)]; [hash] is the encoded hash that
    [argon2.hash(newPassword)] produces in this call. The result is the
    [email] field of the returned object. *)
Definition changePassword (hash : string) (newPassword : string) : MS string :=
  pending <- checkPasswordChangeRequest ;;
  if negb pending then throwS (Error "No password change request found")
  else
    user <- findFirst_operator ;;
    match user with
    | None => throwS (Error "Operator user not found")
    | Some user =>
        update_password (Db.id user) hash ;;;
        unlinkFile_request ;;;
        retS (Db.username user)
    end.

Definition cancelPasswordChangeRequest : MS bool :=
  exists_ <- fileExists_request ;;
  if exists_ then unlinkFile_request ;;; retS true
  else retS true.

(** The static methods, run inside a [Store]. *)
Definition logout (session : option string) : MS bool :=
  lift (AuthService.logout session).
Definition refreshToken (v4 : string) (session : option string)
  : MS (option TokenResponse) :=
  lift (AuthService.refreshToken v4 session).

End AuthServiceClass.

(** ** Definitions used in the statements about users *)

(** One call of the authentication service on a [Store], the operator
    asking for a password change (the request file appears), or time
    passing. *)
Inductive AuthCall :=
| CallLogin (v4 : string) (input : UsernamePasswordInput)
| CallRegister (v4 hash : string) (input : UsernamePasswordInput)
| CallMe (userId : option nat)
| CallIsConfigured
| CallChangePassword (hash newPassword : string)
| CallCheckPasswordChangeRequest
| CallCancelPasswordChangeRequest
| CallStoreLogout (session : option string)
| CallStoreRefreshToken (v4 : string) (session : option string)
| RequestPasswordChange
| AuthWait (d : nat).

Definition auth_call (L : Libraries) (c : AuthCall) (s : Store) : Store :=
  match c with
  | CallLogin v4 input => snd (AuthServiceClass.login L v4 input s)
  | CallRegister v4 hash input => snd (AuthServiceClass.register L v4 hash input s)
  | CallMe userId => snd (AuthServiceClass.me userId s)
  | CallIsConfigured => snd (AuthServiceClass.isConfigured s)
  | CallChangePassword hash newPassword =>
      snd (AuthServiceClass.changePassword hash newPassword s)
  | CallCheckPasswordChangeRequest =>
      snd (AuthServiceClass.checkPasswordChangeRequest s)
  | CallCancelPasswordChangeRequest =>
      snd (AuthServiceClass.cancelPasswordChangeRequest s)
  | CallStoreLogout session => snd (AuthServiceClass.logout session s)
  | CallStoreRefreshToken v4 session =>
      snd (AuthServiceClass.refreshToken v4 session s)
  | RequestPasswordChange => with_password_change_request true s
  | AuthWait d => with_world (elapse d (world s)) s
  end.

Definition auth_calls (L : Libraries) (cs : list AuthCall) (s : Store) : Store :=
  fold_left (fun s c => auth_call L c s) cs s.

(** The number of operator rows. *)
Definition operators (s : Store) : nat :=
  length (List.filter Db.operator (users s)).

(** The row of [u] with another password. *)
Definition with_password (hash : string) (u : Db.User) : Db.User :=
  Db.mkUser (Db.id u) (Db.username u) hash (Db.operator u).

(** [username.trim().toLowerCase()]. *)
Definition normalised (L : Libraries) (username : string) : string :=
  toLowerCase L (trim L username).

Definition by_username (name : string) (u : Db.User) : bool :=
  String.eqb (Db.username u) name.

Definition admin_exists : Exn :=
  Error "There is already an admin user. Please login to create a new user from the admin panel.".


(** The table is as the schema wants it: no two rows share a [username] or
    an [id], and no [id] is beyond the sequence. *)
Record table_ok (s : Store) : Prop := {
  usernames_unique : NoDup (List.map Db.username (users s));
  ids_unique : NoDup (List.map Db.id (users s));
  ids_from_sequence : Forall (fun u => Db.id u <= user_id_seq s) (users s)
}.

(** The store after a successful [register]: the sequence advanced by one,
    the new operator row appended, the session written. *)
Definition registered (L : Libraries) (v4 hash : string)
  (input : UsernamePasswordInput) (s : Store) : Store :=
  mkStore
    (with_cache (<[v4 := mkEntry (Number_toString (S (user_id_seq s))) None]>
                   (cache (world s))) (world s))
    (users s ++ [Db.mkUser (S (user_id_seq s))
                           (normalised L (input_username input)) hash true])
    (S (user_id_seq s))
    (password_change_request s).

(** What one call can do to the user table: nothing (the sequence may
    advance), append one operator row with the next [id] and a username not
    yet there, at a time when there is no operator, or overwrite the
    password of the rows with one [id]. *)
Inductive table_step (s s' : Store) : Prop :=
| step_same :
    users s' = users s -> user_id_seq s <= user_id_seq s' -> table_step s s'
| step_insert (row : Db.User) :
    users s' = (users s ++ [row])%list ->
    user_id_seq s' = S (user_id_seq s) ->
    Db.id row = S (user_id_seq s) ->
    Db.operator row = true ->
    List.find (by_username (Db.username row)) (users s) = None ->
    List.find Db.operator (users s) = None ->
    table_step s s'
| step_password (i : nat) (hash : string) :
    users s' = List.map (set_password i hash) (users s) ->
    user_id_seq s' = user_id_seq s ->
    table_step s s'.

(** ASCII lower case and the trim of the version parser, for the samples. *)
Definition ascii_lower (c : ascii) : ascii :=
  let n := nat_of_ascii c in
  if (65 <=? n) && (n <=? 90) then ascii_of_nat (n + 32) else c.

Fixpoint string_map (f : ascii -> ascii) (s : string) : string :=
  match s with
  | EmptyString => EmptyString
  | String c r => String (f c) (string_map f r)
  end.

Fixpoint has_char (c : ascii) (s : string) : bool :=
  match s with
  | EmptyString => false
  | String a r => Ascii.eqb a c || has_char c r
  end.

(** Stand-ins for the library functions in the samples: an address is a
    string with an [@], and the hash of [p] is [p] behind a fixed prefix. *)
Definition sample_libraries : Libraries :=
  mkLibraries Semver.trim (string_map ascii_lower)
    (has_char "@"%char)
    (fun h p => if String.eqb h ("$argon2id$" +:+ p) then Ok true else Ok false).

Definition sample_store (us : list Db.User) (seq : nat) (req : bool) : Store :=
  mkStore (sample_world "production" RUNNING "1.0.0" ∅) us seq req.

(** ** The order on versions *)



Lemma Identifier_eqb_eq (a b : Semver.Identifier) :
  Semver.Identifier_eqb a b = true <-> a = b.
Proof.
  destruct a as [n|x], b as [m|y]; cbn; split; try discriminate.
  - intros H. apply N.eqb_eq in H. congruence.
  - intros [= ->]. apply N.eqb_refl.
  - intros H. apply String.eqb_eq in H. congruence.
  - intros [= ->]. apply String.eqb_refl.
Qed.

Lemma compareIdentifiers_refl (a : Semver.Identifier) :
  Semver.compareIdentifiers a a = Eq.
Proof.
  unfold Semver.compareIdentifiers.
  destruct (Semver.is_numeric a && Semver.is_numeric a);
    [apply N.compare_refl|].
  rewrite (proj2 (Identifier_eqb_eq a a) eq_refl). reflexivity.
Qed.

Lemma comparePre_loop_refl (a : list Semver.Identifier) :
  Semver.comparePre_loop a a = Eq.
Proof.
  induction a as [|x a IH]; cbn; [reflexivity|].
  rewrite (proj2 (Identifier_eqb_eq x x) eq_refl). exact IH.
Qed.

(** A version compares equal to itself. *)
Lemma compare_refl (a : Semver.SemVer) : Semver.compare a a = Eq.
Proof.
  unfold Semver.compare, Semver.compareMain, Semver.comparePre.
  rewrite !N.compare_refl. cbn.
  destruct (Semver.prerelease a) as [|x r]; [reflexivity|].
  exact (comparePre_loop_refl (x :: r)).
Qed.

(** *** [compare] against the precedence of the standard *)











(** What the constructor throws is a [TypeError] with one of its texts. *)
Lemma construct_rejection (v : string) (e : Exn) :
  Semver.construct v = inl e ->
  exists text, e = TypeError text /\ semver_rejection text.
Proof.
  unfold Semver.construct, semver_rejection.
  destruct (Semver.MAX_LENGTH <? String.length v); [intros [= <-]; eauto 7|].
  destruct (Semver.match_full v) as [[[[[a b] c] p] bl]|];
    [|intros [= <-]; eauto 7].
  destruct (Semver.MAX_SAFE_INTEGER <? a)%N; [intros [= <-]; eauto 7|].
  destruct (Semver.MAX_SAFE_INTEGER <? b)%N; [intros [= <-]; eauto 7|].
  destruct (Semver.MAX_SAFE_INTEGER <? c)%N; [intros [= <-]; eauto 8|].
  discriminate.
Qed.


(** ** Properties of [getVersion] *)

Lemma or_empty_Some (s : string) : or_empty (Some s) = s.
Proof.
  unfold or_empty, truthy. destruct (String.eqb_spec s ""); simpl; congruence.
Qed.

Lemma truthy_Some (s : string) : s <> "" -> truthy (Some s) = true.
Proof.
  intros Hs. unfold truthy. destruct (String.eqb_spec s ""); simpl; congruence.
Qed.

Lemma getVersion_hit (o : FetchOutcome) (w : World) (c : string) :
  cache_lookup (now w) (cache w) "latestVersion" = Some c ->
  c <> "" ->
  SystemService.getVersion o w =
    (Ok (mkVersionInfo (version (config w)) (Some (replace_v c))), w).
Proof.
  intros Hc Hne. unfold SystemService.getVersion, try_catch, bind, cache_get.
  rewrite Hc, (truthy_Some c Hne). reflexivity.
Qed.

Lemma getVersion_miss_release (w : World) (name : string) :
  cache_miss w ->
  SystemService.getVersion (Release (Some name)) w =
    (Ok (mkVersionInfo (version (config w))
                       (Some (replace_v (replace_v name)))),
     with_cache (<["latestVersion" :=
                     mkEntry (replace_v (replace_v name)) (Some (now w + 60 * 60))]>
                   (cache w))
                (requested w)).
Proof.
  intros Hm. unfold SystemService.getVersion, try_catch, bind, cache_get.
  rewrite Hm. cbn -[or_empty replace_v Nat.mul]. rewrite or_empty_Some. reflexivity.
Qed.

Lemma getVersion_miss_failure (o : FetchOutcome) (w : World) (e : Exn) :
  cache_miss w ->
  lookup_error o = Some e ->
  SystemService.getVersion o w =
    (Ok (mkVersionInfo (version (config w)) None),
     with_logged (logged w ++ [e]) (requested w)).
Proof.
  intros Hm He. unfold SystemService.getVersion, try_catch, bind, cache_get.
  rewrite Hm. destruct o as [m|m|[n|]]; simpl in *; inversion He; reflexivity.
Qed.

(** Whatever happens, [getVersion] returns; it leaves the configuration,
    the clock and the dispatched events alone. *)
Lemma getVersion_returns (o : FetchOutcome) (w : World) :
  exists v w',
    SystemService.getVersion o w = (Ok v, w') /\
    current v = version (config w) /\
    config w' = config w /\ events w' = events w /\ now w' = now w.
Proof.
  destruct (truthy (cache_lookup (now w) (cache w) "latestVersion")) eqn:Ht.
  - destruct (cache_lookup (now w) (cache w) "latestVersion") as [c|] eqn:Hc;
      [|discriminate].
    assert (c <> "") by (intros ->; discriminate).
    eexists _, _. rewrite (getVersion_hit o w c); auto.
  - destruct (lookup_error o) as [e|] eqn:He.
    + eexists _, _. rewrite (getVersion_miss_failure o w e); auto.
    + destruct o as [m|m|[n|]]; try discriminate.
      eexists _, _. rewrite (getVersion_miss_release w n); auto.
Qed.


Lemma update_unfold (o : FetchOutcome) (w w1 : World) (v : VersionInfo) :
  SystemService.getVersion o w = (Ok v, w1) ->
  config w1 = config w ->
  SystemService.update o w =
    (update_decision (NODE_ENV (config w)) v,
     if failed (update_decision (NODE_ENV (config w)) v) then w1
     else update_published w1).
Proof.
  intros Hg Hcfg.
  unfold SystemService.update, update_decision.
  unfold bind at 1. rewrite Hg.
  unfold bind at 1, getConfig. rewrite Hcfg.
  destruct (String.eqb (NODE_ENV (config w)) "development"); [reflexivity|].
  destruct (latest v) as [l|]; [|reflexivity].
  unfold truthy. destruct (String.eqb l ""); [reflexivity|].
  unfold Semver.gt, Semver.eq, Semver.major_of, Semver.new.
  cbn [negb].
  destruct (Semver.construct (current v)) as [e|vc]; [reflexivity|].
  destruct (Semver.construct l) as [e|vl]; [reflexivity|].
  unfold bind, ret, throw.
  destruct (Semver.compare vc vl); cbn [Semver.is_gt Semver.is_eq];
    try reflexivity.
  destruct (Semver.major vc =? Semver.major vl)%N; reflexivity.
Qed.

(** ** System update and the current status *)

Lemma update_closed_form (o : FetchOutcome) (w : World) :
  exists v w1,
    SystemService.getVersion o w = (Ok v, w1) /\
    config w1 = config w /\ events w1 = events w /\
    SystemService.update o w =
      (update_decision (NODE_ENV (config w)) v,
       if failed (update_decision (NODE_ENV (config w)) v) then w1
       else update_published w1).
Proof.
  destruct (getVersion_returns o w) as (v & w1 & Hg & _ & Hcfg & Hev & _).
  exists v, w1. repeat split; auto using update_unfold.
Qed.



(** ** System update and the versions *)



(** Beyond [MAX_SAFE_INTEGER] the package compares all-digit prerelease
    identifiers as doubles: [9007199254740992] and [9007199254740993] are
    the same double, so the two versions compare equal. *)
Example update_double_identifiers :
  result_of (SystemService.update offline
    (sample_world "production" RUNNING "1.0.0-9007199254740992"
                  (pinned "1.0.0-9007199254740993" 3700)))
  = Throw AlreadyUpToDate.
Proof. vm_compute. reflexivity. Qed.

(** The four scenarios of the specification's testable properties. *)
Example update_same_version :
  result_of (SystemService.update offline
    (sample_world "production" RUNNING "1.2.0" (pinned "1.2.0" 3700)))
  = Throw AlreadyUpToDate.
Proof. vm_compute. reflexivity. Qed.

Example update_downgrade :
  result_of (SystemService.update offline
    (sample_world "production" RUNNING "2.0.0" (pinned "1.9.0" 3700)))
  = Throw DowngradeRejected.
Proof. vm_compute. reflexivity. Qed.

Example update_across_major :
  result_of (SystemService.update offline
    (sample_world "production" RUNNING "1.0.0" (pinned "2.0.0" 3700)))
  = Throw MajorVersionMismatch.
Proof. vm_compute. reflexivity. Qed.

Example update_minor_bump :
  SystemService.update (Release (Some "v1.1.0"))
    (sample_world "production" RUNNING "1.0.0" ∅)
  = (Ok true,
     mkWorld (mkConfig "1.0.0" "production" UPDATING "secret")
             (pinned "1.1.0" 3700) 100 [releases_url] ["update"] []).
Proof. vm_compute. reflexivity. Qed.

(** ** System restart *)

(** C3, as amended: outside development, [restart] succeeds from every
    status, RUNNING or not: it writes status RESTARTING and publishes a
    [restart] event, and changes nothing else. *)
Theorem restart_ignores_status_C3 (w : World) :
  NODE_ENV (config w) <> "development" ->
  SystemService.restart w =
    (Ok true,
     with_events (events w ++ ["restart"]) (set_status RESTARTING w)).
Proof.
  intros Henv. unfold SystemService.restart, bind, getConfig.
  destruct (String.eqb_spec (NODE_ENV (config w)) "development");
    [contradiction|reflexivity].
Qed.

Lemma restart_ignores_status_C3_witness :
  SystemService.restart (sample_world "production" RESTARTING "1.0.0" ∅) =
    (Ok true,
     with_events ["restart"]
       (set_status RESTARTING (sample_world "production" RESTARTING "1.0.0" ∅))).
Proof.
  apply (restart_ignores_status_C3
           (sample_world "production" RESTARTING "1.0.0" ∅)).
  discriminate.
Defined.

(** C3, as stated, fails: with the status UPDATING, in production,
    [restart] does not fail; it returns [true], overwrites the status with
    RESTARTING and publishes [restart]. *)
Lemma restart_while_updating_C3_counterexample :
  status (config (sample_world "production" UPDATING "1.0.0" ∅)) <> RUNNING /\
  SystemService.restart (sample_world "production" UPDATING "1.0.0" ∅) =
    (Ok true,
     mkWorld (mkConfig "1.0.0" "production" RESTARTING "secret")
             ∅ 100 [] ["restart"] []).
Proof. split; [discriminate|]. vm_compute. reflexivity. Qed.

(** ** The development environment *)

(** C4: in development both [update] and [restart] fail with their
    EnvironmentRestricted error; neither changes the configuration (so no
    status is written) nor the list of published events. [restart] changes
    nothing at all. *)
Theorem development_restricted_C4 (o : FetchOutcome) (w : World) :
  NODE_ENV (config w) = "development" ->
  result_of (SystemService.update o w) = Throw EnvironmentRestricted_update /\
  config (world_of (SystemService.update o w)) = config w /\
  events (world_of (SystemService.update o w)) = events w /\
  SystemService.restart w = (Throw EnvironmentRestricted_restart, w).
Proof.
  intros Henv.
  destruct (update_closed_form o w) as (v & w1 & Hg & Hcfg & Hev & Hu).
  rewrite Hu. unfold update_decision, result_of, world_of. rewrite Henv.
  cbn [fst snd String.eqb failed]. repeat split; auto.
  unfold SystemService.restart, bind, getConfig. rewrite Henv. reflexivity.
Qed.

Lemma development_restricted_C4_witness :
  result_of (SystemService.update (Release (Some "v1.1.0"))
               (sample_world "development" RUNNING "1.0.0" ∅))
    = Throw EnvironmentRestricted_update /\
  config (world_of (SystemService.update (Release (Some "v1.1.0"))
               (sample_world "development" RUNNING "1.0.0" ∅)))
    = config (sample_world "development" RUNNING "1.0.0" ∅) /\
  events (world_of (SystemService.update (Release (Some "v1.1.0"))
               (sample_world "development" RUNNING "1.0.0" ∅)))
    = events (sample_world "development" RUNNING "1.0.0" ∅) /\
  SystemService.restart (sample_world "development" RUNNING "1.0.0" ∅) =
    (Throw EnvironmentRestricted_restart,
     sample_world "development" RUNNING "1.0.0" ∅).
Proof.
  apply (development_restricted_C4 (Release (Some "v1.1.0"))
           (sample_world "development" RUNNING "1.0.0" ∅)).
  reflexivity.
Defined.

(** ** The version lookup *)

(** C5: for every answer [o] of the release endpoint and every world,
    [getVersion] returns a value (it never throws); [current] is the version
    of the local configuration; and when the lookup is made and fails with
    [e], [latest] is undefined and the only traces are the recorded request
    and [e] in the log: cache, configuration and events are as before. *)
Theorem getVersion_never_throws_C5 (o : FetchOutcome) (w : World) :
  exists v,
    result_of (SystemService.getVersion o w) = Ok v /\
    current v = version (config w) /\
    (forall e, cache_miss w -> lookup_error o = Some e ->
       latest v = None /\
       world_of (SystemService.getVersion o w) =
         with_logged (logged w ++ [e]) (requested w)).
Proof.
  destruct (getVersion_returns o w) as (v & w1 & Hg & Hc & _).
  exists v. rewrite Hg. repeat split; auto;
    rewrite (getVersion_miss_failure o w e) in Hg by assumption;
    inversion Hg; reflexivity.
Qed.

Lemma getVersion_never_throws_C5_witness :
  exists v,
    result_of (SystemService.getVersion offline
                 (sample_world "production" RUNNING "1.0.0" ∅))
      = Ok v /\
    current v = "1.0.0" /\
    latest v = None /\
    world_of (SystemService.getVersion offline
                (sample_world "production" RUNNING "1.0.0" ∅))
      = mkWorld (mkConfig "1.0.0" "production" RUNNING "secret") ∅ 100
                [releases_url] [] [NetworkError "getaddrinfo ENOTFOUND"].
Proof.
  destruct (getVersion_never_throws_C5 offline
              (sample_world "production" RUNNING "1.0.0" ∅))
    as (v & Hr & Hc & Hf).
  exists v. split; [exact Hr|]. split; [exact Hc|].
  apply (Hf (NetworkError "getaddrinfo ENOTFOUND")); reflexivity.
Defined.

Lemma replace_v_without_v (s : string) : has_v s = false -> replace_v s = s.
Proof.
  induction s as [|c r IH]; cbn; [reflexivity|].
  destruct (Ascii.eqb c "v"%char); cbn; [discriminate|].
  intros H. rewrite IH; auto.
Qed.

(** Where the release name has no [v] beyond a leading one, the two
    removals of [getVersion] amount to stripping the prefix. *)
Lemma replace_v_twice_strips (name : string) :
  has_v (strip_leading_v name) = false ->
  replace_v (replace_v name) = strip_leading_v name.
Proof.
  destruct name as [|c r]; [reflexivity|]. unfold strip_leading_v.
  destruct (Ascii.eqb c "v"%char) eqn:Hc; intros H.
  - cbn [replace_v]. rewrite Hc. apply replace_v_without_v; exact H.
  - rewrite !(replace_v_without_v _ H). reflexivity.
Qed.

(** C6 does not hold of the code: on a cache miss, when the endpoint
    answers with the release name [v1.1.0-dev], [getVersion] makes one
    request and stores a value under [latestVersion] for 3600 seconds, but
    the value stored and returned is [1.1.0-de], not the name without its
    leading prefix ([1.1.0-dev]): [replace('v', '')] is applied twice and
    removes a [v] wherever it stands. *)
Theorem getVersion_strips_inner_v_C6 :
  cache_miss (sample_world "production" RUNNING "1.0.0" ∅) /\
  strip_leading_v "v1.1.0-dev" = "1.1.0-dev" /\
  SystemService.getVersion (Release (Some "v1.1.0-dev"))
             (sample_world "production" RUNNING "1.0.0" ∅) =
    (Ok (mkVersionInfo "1.0.0" (Some "1.1.0-de")),
     mkWorld (mkConfig "1.0.0" "production" RUNNING "secret")
             (pinned "1.1.0-de" (100 + 3600)) 100 [releases_url] [] []).
Proof. repeat split; vm_compute; reflexivity. Qed.

(** On a live, non-empty record the lookup is skipped, and what is returned
    is the record with its first [v] removed. *)
Example getVersion_hit_skips_lookup :
  SystemService.getVersion (Release (Some "v9.9.9"))
             (sample_world "production" RUNNING "1.0.0" (pinned "1.1.0" 3700)) =
    (Ok (mkVersionInfo "1.0.0" (Some "1.1.0")),
     sample_world "production" RUNNING "1.0.0" (pinned "1.1.0" 3700)).
Proof. vm_compute. reflexivity. Qed.

(** C8, as amended: in development, on a cache miss, [update] sends one
    request to the release endpoint before it fails with
    EnvironmentRestricted; when the endpoint answers with a release name,
    [latestVersion] has been written to the cache (for 3600 seconds) by
    then; when the lookup fails with [e], nothing is written to the cache
    and [e] is logged. *)
Theorem update_development_looks_up_first_C8 (o : FetchOutcome) (w : World) :
  NODE_ENV (config w) = "development" ->
  cache_miss w ->
  result_of (SystemService.update o w) = Throw EnvironmentRestricted_update /\
  requests (world_of (SystemService.update o w)) =
    (requests w ++ [releases_url])%list /\
  (forall name, o = Release (Some name) ->
     cache (world_of (SystemService.update o w)) =
       <["latestVersion" :=
           mkEntry (replace_v (replace_v name)) (Some (now w + 3600))]> (cache w)) /\
  (forall e, lookup_error o = Some e ->
     cache (world_of (SystemService.update o w)) = cache w /\
     logged (world_of (SystemService.update o w)) = (logged w ++ [e])%list).
Proof.
  intros Henv Hm.
  destruct (update_closed_form o w) as (v & w1 & Hg & Hcfg & Hev & Hu).
  rewrite Hu. unfold update_decision, result_of, world_of. rewrite Henv.
  cbn [fst snd String.eqb failed]. split; [reflexivity|].
  destruct (lookup_error o) as [e|] eqn:He.
  - rewrite (getVersion_miss_failure o w e Hm He) in Hg. inversion Hg.
    split; [reflexivity|]. split.
    + intros name ->. discriminate.
    + intros e' [= <-]. split; reflexivity.
  - destruct o as [m|m|[n|]]; try discriminate.
    rewrite (getVersion_miss_release w n Hm) in Hg. inversion Hg.
    split; [reflexivity|]. split.
    + intros name [= <-]. reflexivity.
    + intros e' [=].
Qed.

Lemma update_development_looks_up_first_C8_witness :
  result_of (SystemService.update (Release (Some "v1.1.0"))
               (sample_world "development" UPDATING "1.0.0" ∅))
    = Throw EnvironmentRestricted_update /\
  requests (world_of (SystemService.update (Release (Some "v1.1.0"))
               (sample_world "development" UPDATING "1.0.0" ∅)))
    = [releases_url] /\
  cache (world_of (SystemService.update (Release (Some "v1.1.0"))
               (sample_world "development" UPDATING "1.0.0" ∅)))
    = <["latestVersion" := mkEntry "1.1.0" (Some 3700)]> ∅.
Proof.
  assert (Hm : cache_miss (sample_world "development" UPDATING "1.0.0" ∅))
    by (vm_compute; reflexivity).
  destruct (update_development_looks_up_first_C8 (Release (Some "v1.1.0"))
              (sample_world "development" UPDATING "1.0.0" ∅)
              eq_refl Hm) as (Hr & Hq & Hc & _).
  split; [exact Hr|]. split; [exact Hq|]. exact (Hc "v1.1.0" eq_refl).
Defined.

(** C8, as stated, fails: in development, on a cache miss, when the request
    to the release endpoint is rejected, [update] has sent the request and
    fails with EnvironmentRestricted, but nothing was written under
    [latestVersion]. *)
Lemma update_development_offline_C8_counterexample :
  NODE_ENV (config (sample_world "development" RUNNING "1.0.0" ∅))
    = "development" /\
  cache_miss (sample_world "development" RUNNING "1.0.0" ∅) /\
  result_of (SystemService.update offline
               (sample_world "development" RUNNING "1.0.0" ∅))
    = Throw EnvironmentRestricted_update /\
  requests (world_of (SystemService.update offline
               (sample_world "development" RUNNING "1.0.0" ∅)))
    = [releases_url] /\
  cache (world_of (SystemService.update offline
               (sample_world "development" RUNNING "1.0.0" ∅)))
    !! "latestVersion" = None.
Proof. repeat split; vm_compute; reflexivity. Qed.

(** ** Sessions *)

(** C7: when session [S] is mapped to user [U] and [v4()] hands out a new
    identifier [S2], [refreshToken] returns a token that carries [S2] and
    [U]; [S2] is mapped to [U]; the record of [S] is kept and re-armed to
    expire 6 seconds later, so that [S] still maps to [U] during those 6
    seconds and is absent from then on. *)
Theorem refreshToken_grace_window_C7 (w : World) (S U S2 : string) :
  S <> "" -> U <> "" -> S2 <> S ->
  cache_lookup (now w) (cache w) S = Some U ->
  exists r w',
    AuthService.refreshToken S2 (Some S) w = (Ok (Some r), w') /\
    jwt_session (token r) = S2 /\
    jwt_id (token r) = U /\
    session_after 0 w' S2 = Some U /\
    cache w' !! S = Some (mkEntry U (Some (now w + 6))) /\
    (forall d, d < 6 -> session_after d w' S = Some U) /\
    (forall d, 6 <= d -> session_after d w' S = None).
Proof.
  intros HS HU Hfresh Hget.
  unfold AuthService.refreshToken.
  rewrite (truthy_Some S HS). cbn [negb].
  unfold bind at 1, cache_get. rewrite Hget, (truthy_Some U HU). cbn [negb].
  eexists _, _. split; [reflexivity|].
  cbn -[Nat.add]. unfold session_after, cache_lookup, elapse. cbn -[Nat.add].
  rewrite lookup_insert_eq, lookup_insert_ne, lookup_insert_eq by congruence.
  unfold alive. cbn -[Nat.add Nat.ltb].
  repeat split; auto; intros d Hd.
  - destruct (Nat.ltb_spec (now w + d) (now w + 6)); [reflexivity|lia].
  - destruct (Nat.ltb_spec (now w + d) (now w + 6)); [lia|reflexivity].
Qed.

Lemma refreshToken_grace_window_C7_witness :
  exists r w',
    AuthService.refreshToken "b2" (Some "a1")
      (sample_world "production" RUNNING "1.0.0" (sessions "a1" "42"))
      = (Ok (Some r), w') /\
    jwt_session (token r) = "b2" /\
    jwt_id (token r) = "42" /\
    session_after 0 w' "b2" = Some "42" /\
    cache w' !! "a1" = Some (mkEntry "42" (Some (100 + 6))) /\
    (forall d, d < 6 -> session_after d w' "a1" = Some "42") /\
    (forall d, 6 <= d -> session_after d w' "a1" = None).
Proof.
  apply (refreshToken_grace_window_C7
           (sample_world "production" RUNNING "1.0.0" (sessions "a1" "42"))
           "a1" "42" "b2");
    try discriminate.
  vm_compute. reflexivity.
Defined.

(** C9: with no session identifier (undefined or empty), or with one that
    has no live record in the cache, [refreshToken] returns [null] and the
    world, the cache in particular, is exactly as before. *)
Theorem refreshToken_null_C9 (v4 : string) (session : option string)
  (w : World) :
  truthy session = false \/
  (exists s, session = Some s /\ cache_lookup (now w) (cache w) s = None) ->
  AuthService.refreshToken v4 session w = (Ok None, w).
Proof.
  intros [Hs | (s & -> & Hget)]; unfold AuthService.refreshToken.
  - destruct session as [s|]; [|reflexivity].
    rewrite Hs. reflexivity.
  - destruct (truthy (Some s)); [|reflexivity]. cbn [negb].
    unfold bind, cache_get. rewrite Hget. reflexivity.
Qed.

Lemma refreshToken_null_C9_witness :
  AuthService.refreshToken "b2" (Some "gone")
    (sample_world "production" RUNNING "1.0.0" (sessions "a1" "42"))
  = (Ok None, sample_world "production" RUNNING "1.0.0" (sessions "a1" "42")).
Proof.
  apply (refreshToken_null_C9 "b2" (Some "gone")
           (sample_world "production" RUNNING "1.0.0" (sessions "a1" "42"))).
  right. exists "gone". split; [reflexivity|]. vm_compute. reflexivity.
Defined.

(** C10: [logout] returns [true] on every input. With a session identifier
    (a non-empty string) the record under it is gone afterwards and every
    other record, and the rest of the world, is untouched; with none
    (undefined or empty) the world is exactly as before. *)
Theorem logout_always_true_C10 (session : option string) (w : World) :
  result_of (AuthService.logout session w) = Ok true /\
  (forall s, session = Some s -> s <> "" ->
     world_of (AuthService.logout session w) =
       with_cache (delete s (cache w)) w /\
     cache (world_of (AuthService.logout session w)) !! s = None /\
     (forall k, k <> s ->
        cache (world_of (AuthService.logout session w)) !! k = cache w !! k)) /\
  (truthy session = false -> world_of (AuthService.logout session w) = w).
Proof.
  unfold AuthService.logout. split; [|split].
  - destruct session as [s|]; [|reflexivity].
    destruct (truthy (Some s)); reflexivity.
  - intros s -> Hs. rewrite (truthy_Some s Hs). cbn.
    split; [reflexivity|]. split.
    + apply lookup_delete_eq.
    + intros k Hk. apply lookup_delete_ne. congruence.
  - intros Hs. destruct session as [s|]; [|reflexivity].
    rewrite Hs. reflexivity.
Qed.

Lemma logout_always_true_C10_witness :
  result_of (AuthService.logout (Some "a1")
    (sample_world "production" RUNNING "1.0.0" (sessions "a1" "42")))
    = Ok true /\
  world_of (AuthService.logout (Some "a1")
    (sample_world "production" RUNNING "1.0.0" (sessions "a1" "42")))
    = with_cache (delete "a1" (sessions "a1" "42"))
        (sample_world "production" RUNNING "1.0.0" (sessions "a1" "42")) /\
  world_of (AuthService.logout None
    (sample_world "production" RUNNING "1.0.0" (sessions "a1" "42")))
    = sample_world "production" RUNNING "1.0.0" (sessions "a1" "42").
Proof.
  destruct (logout_always_true_C10 (Some "a1")
    (sample_world "production" RUNNING "1.0.0" (sessions "a1" "42")))
    as (Hr & Hd & _).
  destruct (logout_always_true_C10 None
    (sample_world "production" RUNNING "1.0.0" (sessions "a1" "42")))
    as (_ & _ & Hn).
  split; [exact Hr|]. split.
  - apply (Hd "a1" eq_refl). discriminate.
  - apply Hn. reflexivity.
Defined.


(** ** Further properties of the system service *)

(** The cache after [getVersion]: as before, or with one record written
    under [latestVersion]. *)
Lemma getVersion_cache (o : FetchOutcome) (w : World) :
  cache (world_of (SystemService.getVersion o w)) = cache w \/
  exists e,
    cache (world_of (SystemService.getVersion o w)) = <["latestVersion" := e]> (cache w).
Proof.
  destruct (truthy (cache_lookup (now w) (cache w) "latestVersion")) eqn:Ht.
  - destruct (cache_lookup (now w) (cache w) "latestVersion") as [c|] eqn:Hc;
      [|discriminate].
    assert (c <> "") by (intros ->; discriminate).
    rewrite (getVersion_hit o w c); auto.
  - destruct (lookup_error o) as [e|] eqn:He.
    + rewrite (getVersion_miss_failure o w e); auto.
    + destruct o as [m|m|[n|]]; try discriminate.
      rewrite (getVersion_miss_release w n); eauto.
Qed.

Lemma update_cache (o : FetchOutcome) (w : World) :
  cache (world_of (SystemService.update o w)) =
  cache (world_of (SystemService.getVersion o w)).
Proof.
  destruct (update_closed_form o w) as (v & w1 & Hg & _ & _ & Hu).
  rewrite Hu, Hg. unfold world_of. cbn [snd].
  destruct (failed _); reflexivity.
Qed.

(** X1: [update] never returns [false]. It returns [true], or throws one of
    its five errors, or throws one of the [TypeError]s of the constructor
    of [semver] for a string it does not accept ('Invalid Version: ...',
    'version is longer than 256 characters', 'Invalid major version',
    'Invalid minor version', 'Invalid patch version'). *)
Theorem update_outcomes_X1 (o : FetchOutcome) (w : World) :
  result_of (SystemService.update o w) = Ok true \/
  In (result_of (SystemService.update o w))
     [Throw EnvironmentRestricted_update; Throw VersionUnavailable;
      Throw DowngradeRejected; Throw AlreadyUpToDate;
      Throw MajorVersionMismatch] \/
  exists text,
    result_of (SystemService.update o w) = Throw (TypeError text) /\
    semver_rejection text.
Proof.
  destruct (update_closed_form o w) as (v & w1 & _ & _ & _ & Hu).
  rewrite Hu. unfold result_of, update_decision. cbn [fst In].
  destruct (String.eqb _ "development"); [auto|].
  destruct (latest v) as [l|]; [|auto].
  destruct (String.eqb l ""); [auto|].
  destruct (Semver.construct (current v)) as [e|vc] eqn:Hc.
  { destruct (construct_rejection _ _ Hc) as (text & -> & Ht). eauto. }
  destruct (Semver.construct l) as [e|vl] eqn:Hl.
  { destruct (construct_rejection _ _ Hl) as (text & -> & Ht). eauto. }
  destruct (Semver.compare vc vl); auto 7.
  destruct (Semver.major vc =? Semver.major vl)%N; auto 8.
Qed.

(** X2: outside development, when nothing usable is cached and the lookup
    fails with [e], [update] throws 'Could not get latest version'; the
    request and [e] in the log are its only traces: no status is written
    and no event published. *)
Theorem update_version_unavailable_X2 (o : FetchOutcome) (w : World) (e : Exn) :
  NODE_ENV (config w) <> "development" ->
  cache_miss w ->
  lookup_error o = Some e ->
  SystemService.update o w =
    (Throw VersionUnavailable, with_logged (logged w ++ [e]) (requested w)).
Proof.
  intros Henv Hm He.
  pose proof (getVersion_miss_failure o w e Hm He) as Hg.
  rewrite (update_unfold o w _ _ Hg eq_refl). unfold update_decision.
  destruct (String.eqb_spec (NODE_ENV (config w)) "development");
    [contradiction|reflexivity].
Qed.

Lemma update_version_unavailable_X2_witness :
  SystemService.update offline (sample_world "production" RUNNING "1.0.0" ∅) =
    (Throw VersionUnavailable,
     mkWorld (mkConfig "1.0.0" "production" RUNNING "secret") ∅ 100
             [releases_url] [] [NetworkError "getaddrinfo ENOTFOUND"]).
Proof.
  apply (update_version_unavailable_X2 offline
           (sample_world "production" RUNNING "1.0.0" ∅)
           (NetworkError "getaddrinfo ENOTFOUND")).
  - discriminate.
  - vm_compute. reflexivity.
  - reflexivity.
Defined.



(** *** Sequences of calls *)

Lemma system_call_config (c : SystemCall) (w : World) :
  version (config (system_call c w)) = version (config w) /\
  NODE_ENV (config (system_call c w)) = NODE_ENV (config w) /\
  jwtSecret (config (system_call c w)) = jwtSecret (config w) /\
  (status (config (system_call c w)) = status (config w) \/
   status (config (system_call c w)) = UPDATING \/
   status (config (system_call c w)) = RESTARTING).
Proof.
  destruct c as [o|o| | |d]; cbn [system_call].
  - destruct (getVersion_returns o w) as (v & w1 & Hg & _ & Hcfg & _).
    rewrite Hg. unfold world_of. cbn [snd]. rewrite Hcfg. auto.
  - destruct (update_closed_form o w) as (v & w1 & _ & Hcfg & _ & Hu).
    rewrite Hu. unfold world_of. cbn [snd].
    destruct (failed _); cbn; rewrite ?Hcfg; repeat split; auto.
  - unfold SystemService.restart, bind, getConfig, world_of.
    destruct (String.eqb _ _); cbn; repeat split; auto.
  - cbn. auto.
  - cbn. auto.
Qed.

Lemma system_call_events (c : SystemCall) (w : World) :
  events (system_call c w) = events w \/
  exists e, system_event e /\ events (system_call c w) = (events w ++ [e])%list.
Proof.
  destruct c as [o|o| | |d]; cbn [system_call].
  - destruct (getVersion_returns o w) as (v & w1 & Hg & _ & _ & Hev & _).
    rewrite Hg. auto.
  - destruct (update_closed_form o w) as (v & w1 & _ & _ & Hev & Hu).
    rewrite Hu. unfold world_of. cbn [snd].
    destruct (failed _); [auto|]. right. exists "update".
    split; [left; reflexivity|]. cbn. rewrite Hev. reflexivity.
  - unfold SystemService.restart, bind, getConfig, world_of.
    destruct (String.eqb _ _); [auto|]. right. exists "restart".
    split; [right; reflexivity|]. reflexivity.
  - auto.
  - auto.
Qed.

(** X4: over any sequence of calls of the system service, with any time
    passing in between, the configuration keeps its [version], [NODE_ENV]
    and [jwtSecret], and the status at the end is the status at the start,
    UPDATING or RESTARTING. The service never writes RUNNING: a status that
    is not RUNNING at the start is not RUNNING at the end. *)
Theorem system_calls_status_X4 (cs : list SystemCall) (w : World) :
  version (config (system_calls cs w)) = version (config w) /\
  NODE_ENV (config (system_calls cs w)) = NODE_ENV (config w) /\
  jwtSecret (config (system_calls cs w)) = jwtSecret (config w) /\
  (status (config (system_calls cs w)) = status (config w) \/
   status (config (system_calls cs w)) = UPDATING \/
   status (config (system_calls cs w)) = RESTARTING) /\
  (status (config w) <> RUNNING ->
   status (config (system_calls cs w)) <> RUNNING).
Proof.
  assert (H : version (config (system_calls cs w)) = version (config w) /\
              NODE_ENV (config (system_calls cs w)) = NODE_ENV (config w) /\
              jwtSecret (config (system_calls cs w)) = jwtSecret (config w) /\
              (status (config (system_calls cs w)) = status (config w) \/
               status (config (system_calls cs w)) = UPDATING \/
               status (config (system_calls cs w)) = RESTARTING)).
  { revert w. induction cs as [|c cs IH]; intros w; [cbn; auto|].
    change (system_calls (c :: cs) w) with (system_calls cs (system_call c w)).
    destruct (IH (system_call c w)) as (Hv & He & Hs & Hst).
    destruct (system_call_config c w) as (Hv' & He' & Hs' & Hst').
    rewrite Hv, He, Hs, Hv', He', Hs'. repeat split; auto.
    destruct Hst as [Hst|Hst]; [rewrite Hst; exact Hst'|auto]. }
  destruct H as (Hv & He & Hs & Hst). repeat split; auto.
  intros Hne. destruct Hst as [Hst|[Hst|Hst]]; rewrite Hst; auto; discriminate.
Qed.

Lemma system_calls_status_X4_witness :
  status (config
    (system_calls [CallRestart; SystemWait 30; CallUpdate (Release (Some "v1.1.0"));
                   CallStatus; CallGetVersion offline]
       (sample_world "production" UPDATING "1.0.0" ∅))) <> RUNNING.
Proof.
  apply (system_calls_status_X4
           [CallRestart; SystemWait 30; CallUpdate (Release (Some "v1.1.0"));
            CallStatus; CallGetVersion offline]
           (sample_world "production" UPDATING "1.0.0" ∅)).
  discriminate.
Defined.

(** X5: over any sequence of calls of the system service, the events
    already published stay where they are, every event added is [update]
    or [restart], and at most one is added per call. *)
Theorem system_calls_events_X5 (cs : list SystemCall) (w : World) :
  exists added,
    events (system_calls cs w) = (events w ++ added)%list /\
    Forall system_event added /\
    length added <= length cs.
Proof.
  revert w. induction cs as [|c cs IH]; intros w.
  - exists []. cbn. rewrite app_nil_r. auto.
  - change (system_calls (c :: cs) w) with (system_calls cs (system_call c w)).
    destruct (IH (system_call c w)) as (l & Hl & Hf & Hn).
    destruct (system_call_events c w) as [Hc|(e & He & Hc)].
    + exists l. rewrite Hl, Hc. cbn [length]. auto with arith.
    + exists (e :: l). rewrite Hl, Hc, <- app_assoc. cbn [length].
      repeat split; auto with arith.
Qed.

(** X6: [status] changes nothing and returns the stored status; read after
    a [restart] outside development it gives RESTARTING, and read after an
    [update] that returned [true] it gives UPDATING. *)
Theorem status_reads_last_write_X6 (o : FetchOutcome) (w : World) :
  SystemService.status w = (Ok (status (config w)), w) /\
  (NODE_ENV (config w) <> "development" ->
   result_of (SystemService.status (world_of (SystemService.restart w)))
     = Ok RESTARTING) /\
  (result_of (SystemService.update o w) = Ok true ->
   result_of (SystemService.status (world_of (SystemService.update o w)))
     = Ok UPDATING).
Proof.
  split; [reflexivity|]. split.
  - intros Henv. unfold SystemService.restart, bind, getConfig.
    destruct (String.eqb_spec (NODE_ENV (config w)) "development");
      [contradiction|reflexivity].
  - destruct (update_closed_form o w) as (v & w1 & _ & _ & _ & Hu).
    rewrite Hu. unfold result_of, world_of. cbn [fst snd].
    intros ->. reflexivity.
Qed.

Lemma status_reads_last_write_X6_witness :
  result_of (SystemService.status
    (world_of (SystemService.restart (sample_world "production" RUNNING "1.0.0" ∅))))
    = Ok RESTARTING /\
  result_of (SystemService.status
    (world_of (SystemService.update (Release (Some "v1.1.0"))
                 (sample_world "production" RUNNING "1.0.0" ∅))))
    = Ok UPDATING.
Proof.
  destruct (status_reads_last_write_X6 (Release (Some "v1.1.0"))
              (sample_world "production" RUNNING "1.0.0" ∅)) as (_ & Hr & Hu).
  split; [apply Hr; discriminate | apply Hu; vm_compute; reflexivity].
Defined.

(** *** The pinned version *)

Lemma getVersion_miss_requests (o : FetchOutcome) (w : World) :
  cache_miss w ->
  requests (world_of (SystemService.getVersion o w)) =
    (requests w ++ [releases_url])%list.
Proof.
  intros Hm. destruct (lookup_error o) as [e|] eqn:He.
  - rewrite (getVersion_miss_failure o w e Hm He). reflexivity.
  - destruct o as [m|m|[n|]]; try discriminate.
    rewrite (getVersion_miss_release w n Hm). reflexivity.
Qed.

(** The record [getVersion] writes, read [d] seconds later. *)
Lemma pinned_lookup (w : World) (name : string) (d : nat) :
  cache_miss w ->
  cache_lookup (now w + d)
    (cache (world_of (SystemService.getVersion (Release (Some name)) w)))
    "latestVersion" =
  if d <? 3600 then Some (replace_v (replace_v name)) else None.
Proof.
  intros Hm. rewrite (getVersion_miss_release w name Hm).
  unfold world_of, cache_lookup, alive. cbn -[Nat.ltb Nat.mul].
  rewrite lookup_insert_eq. cbn -[Nat.ltb Nat.mul].
  change (60 * 60) with 3600.
  destruct (Nat.ltb_spec d 3600), (Nat.ltb_spec (now w + d) (now w + 3600));
    try reflexivity; lia.
Qed.

Lemma getVersion_miss_now (w : World) (name : string) :
  cache_miss w ->
  now (world_of (SystemService.getVersion (Release (Some name)) w)) = now w /\
  config (world_of (SystemService.getVersion (Release (Some name)) w)) = config w /\
  requests (world_of (SystemService.getVersion (Release (Some name)) w))
    = (requests w ++ [releases_url])%list.
Proof.
  intros Hm. rewrite (getVersion_miss_release w name Hm). auto.
Qed.

(** X7: a release name fetched on a miss (and not empty once its first two
    [v] are removed) is pinned for 3600 seconds. Any [getVersion] less than
    3600 seconds later sends no request, changes nothing and answers from
    the record, with one more [v] removed; from 3600 seconds on, the next
    [getVersion] sends a second request. *)
Theorem getVersion_pinned_one_hour_X7 (w : World) (name : string)
  (o : FetchOutcome) (d : nat) :
  cache_miss w ->
  replace_v (replace_v name) <> "" ->
  (d < 3600 ->
   SystemService.getVersion o
     (elapse d (world_of (SystemService.getVersion (Release (Some name)) w))) =
   (Ok (mkVersionInfo (version (config w))
                      (Some (replace_v (replace_v (replace_v name))))),
    elapse d (world_of (SystemService.getVersion (Release (Some name)) w)))) /\
  (3600 <= d ->
   requests (world_of (SystemService.getVersion o
     (elapse d (world_of (SystemService.getVersion (Release (Some name)) w)))))
   = (requests w ++ [releases_url; releases_url])%list).
Proof.
  intros Hm Hne.
  destruct (getVersion_miss_now w name Hm) as (Hnow & Hcfg & Hreq).
  pose proof (pinned_lookup w name d Hm) as Hl.
  split; intros Hd.
  - destruct (Nat.ltb_spec d 3600); [|lia].
    rewrite (getVersion_hit o _ (replace_v (replace_v name))); auto.
    + cbn. rewrite Hcfg. reflexivity.
    + cbn. rewrite Hnow. exact Hl.
  - destruct (Nat.ltb_spec d 3600); [lia|].
    rewrite getVersion_miss_requests.
    + cbn. rewrite Hreq, <- app_assoc. reflexivity.
    + unfold cache_miss. cbn. rewrite Hnow, Hl. reflexivity.
Qed.

Lemma getVersion_pinned_one_hour_X7_witness :
  SystemService.getVersion offline
    (elapse 3599 (world_of (SystemService.getVersion (Release (Some "v1.1.0"))
                              (sample_world "production" RUNNING "1.0.0" ∅)))) =
  (Ok (mkVersionInfo "1.0.0" (Some "1.1.0")),
   elapse 3599 (world_of (SystemService.getVersion (Release (Some "v1.1.0"))
                            (sample_world "production" RUNNING "1.0.0" ∅)))).
Proof.
  apply (getVersion_pinned_one_hour_X7
           (sample_world "production" RUNNING "1.0.0" ∅) "v1.1.0" offline 3599).
  - vm_compute. reflexivity.
  - discriminate.
  - lia.
Defined.

(** X8: a release name that is empty once its first two [v] are removed
    (such as [v]) is returned as the empty [latest] and is never pinned: at
    any later time the cache still counts as missed; and [update] outside
    development answers with 'Could not get latest version'. *)
Theorem getVersion_empty_version_X8 (w : World) (name : string) (d : nat) :
  cache_miss w ->
  replace_v (replace_v name) = "" ->
  result_of (SystemService.getVersion (Release (Some name)) w) =
    Ok (mkVersionInfo (version (config w)) (Some "")) /\
  cache_miss
    (elapse d (world_of (SystemService.getVersion (Release (Some name)) w))) /\
  (NODE_ENV (config w) <> "development" ->
   result_of (SystemService.update (Release (Some name)) w) =
     Throw VersionUnavailable).
Proof.
  intros Hm He.
  destruct (getVersion_miss_now w name Hm) as (Hnow & Hcfg & Hreq).
  pose proof (pinned_lookup w name d Hm) as Hl.
  split; [|split].
  - rewrite (getVersion_miss_release w name Hm), He. reflexivity.
  - unfold cache_miss. cbn. rewrite Hnow, Hl, He.
    destruct (d <? 3600); reflexivity.
  - intros Henv.
    rewrite (update_unfold _ w _ _ (getVersion_miss_release w name Hm) eq_refl).
    unfold update_decision, result_of. cbn [fst latest].
    destruct (String.eqb_spec (NODE_ENV (config w)) "development");
      [contradiction|].
    rewrite He. reflexivity.
Qed.

Lemma getVersion_empty_version_X8_witness :
  result_of (SystemService.getVersion (Release (Some "v"))
               (sample_world "production" RUNNING "1.0.0" ∅)) =
    Ok (mkVersionInfo "1.0.0" (Some "")) /\
  cache_miss
    (elapse 1 (world_of (SystemService.getVersion (Release (Some "v"))
                           (sample_world "production" RUNNING "1.0.0" ∅)))) /\
  result_of (SystemService.update (Release (Some "v"))
               (sample_world "production" RUNNING "1.0.0" ∅)) =
    Throw VersionUnavailable.
Proof.
  assert (Hm : cache_miss (sample_world "production" RUNNING "1.0.0" ∅))
    by (vm_compute; reflexivity).
  destruct (getVersion_empty_version_X8
              (sample_world "production" RUNNING "1.0.0" ∅) "v" 1 Hm eq_refl)
    as (H1 & H2 & H3).
  split; [exact H1|]. split; [exact H2|]. apply H3. discriminate.
Defined.

(** X9: [getVersion] and [update] write to the cache under [latestVersion]
    only: the record under any other key, a session for instance, is after
    the call what it was before. *)
Theorem version_lookup_keeps_sessions_X9 (o : FetchOutcome) (w : World)
  (key : string) :
  key <> "latestVersion" ->
  cache (world_of (SystemService.getVersion o w)) !! key = cache w !! key /\
  cache (world_of (SystemService.update o w)) !! key = cache w !! key.
Proof.
  intros Hk. rewrite update_cache.
  destruct (getVersion_cache o w) as [H|(e & H)]; rewrite H;
    rewrite ?lookup_insert_ne by congruence; auto.
Qed.

Lemma version_lookup_keeps_sessions_X9_witness :
  cache (world_of (SystemService.getVersion (Release (Some "v1.1.0"))
      (sample_world "production" RUNNING "1.0.0" (sessions "a1" "42")))) !! "a1"
    = Some (mkEntry "42" None) /\
  cache (world_of (SystemService.update (Release (Some "v1.1.0"))
      (sample_world "production" RUNNING "1.0.0" (sessions "a1" "42")))) !! "a1"
    = Some (mkEntry "42" None).
Proof.
  apply (version_lookup_keeps_sessions_X9 (Release (Some "v1.1.0"))
           (sample_world "production" RUNNING "1.0.0" (sessions "a1" "42")) "a1").
  discriminate.
Defined.

(** ** Further properties of the session methods *)

Lemma refreshToken_success (w : World) (S U S2 : string) :
  S <> "" -> U <> "" ->
  cache_lookup (now w) (cache w) S = Some U ->
  AuthService.refreshToken S2 (Some S) w =
    (Ok (Some (mkTokenResponse (mkJwt U S2 (jwtSecret (config w)) "1d"))),
     with_cache (<[S2 := mkEntry U None]>
                   (<[S := mkEntry U (Some (now w + 6))]> (cache w))) w).
Proof.
  intros HS HU Hget. unfold AuthService.refreshToken.
  rewrite (truthy_Some S HS). cbn [negb].
  unfold bind at 1, cache_get. rewrite Hget, (truthy_Some U HU). reflexivity.
Qed.

(** A call of [refreshToken] either changes nothing or is the successful
    refresh of a live session. *)
Lemma refreshToken_cases (v4 : string) (session : option string) (w : World) :
  AuthService.refreshToken v4 session w = (Ok None, w) \/
  exists S U, session = Some S /\ S <> "" /\ U <> "" /\
    cache_lookup (now w) (cache w) S = Some U /\
    AuthService.refreshToken v4 session w =
      (Ok (Some (mkTokenResponse (mkJwt U v4 (jwtSecret (config w)) "1d"))),
       with_cache (<[v4 := mkEntry U None]>
                     (<[S := mkEntry U (Some (now w + 6))]> (cache w))) w).
Proof.
  destruct session as [S|]; [|left; reflexivity].
  destruct (String.eqb_spec S "") as [->|HS]; [left; reflexivity|].
  destruct (cache_lookup (now w) (cache w) S) as [U|] eqn:Hget.
  - destruct (String.eqb_spec U "") as [->|HU].
    + left. unfold AuthService.refreshToken. rewrite (truthy_Some S HS).
      cbn [negb]. unfold bind at 1, cache_get. rewrite Hget. reflexivity.
    + right. exists S, U. repeat split; auto using refreshToken_success.
  - left. unfold AuthService.refreshToken. rewrite (truthy_Some S HS).
    cbn [negb]. unfold bind at 1, cache_get. rewrite Hget. reflexivity.
Qed.

Lemma logout_world (session : option string) (w : World) :
  world_of (AuthService.logout session w) = w \/
  exists s, session = Some s /\ s <> "" /\
    world_of (AuthService.logout session w) = with_cache (delete s (cache w)) w.
Proof.
  destruct session as [s|]; [|left; reflexivity].
  destruct (String.eqb_spec s "") as [->|Hs]; [left; reflexivity|].
  right. exists s. unfold AuthService.logout. rewrite (truthy_Some s Hs). auto.
Qed.

Lemma lookup_fresh_entry (t : nat) (m : gmap string Entry) (k u : string) :
  cache_lookup t (<[k := mkEntry u None]> m) k = Some u.
Proof. unfold cache_lookup. rewrite lookup_insert_eq. reflexivity. Qed.

Lemma lookup_other_entry (t : nat) (m : gmap string Entry) (k k' : string)
  (e : Entry) :
  k <> k' -> cache_lookup t (<[k := e]> m) k' = cache_lookup t m k'.
Proof. intros H. unfold cache_lookup. rewrite lookup_insert_ne; auto. Qed.

Lemma lookup_armed_entry (t x : nat) (m : gmap string Entry) (k u : string) :
  cache_lookup t (<[k := mkEntry u (Some x)]> m) k =
    if t <? x then Some u else None.
Proof. unfold cache_lookup, alive. rewrite lookup_insert_eq. reflexivity. Qed.

Lemma last_nonempty_default {A} (x : A) (l : list A) (d d' : A) :
  List.last (x :: l) d = List.last (x :: l) d'.
Proof.
  revert x. induction l as [|y l IH]; intros x; [reflexivity|].
  change (List.last (y :: l) d = List.last (y :: l) d'). apply IH.
Qed.

(** X10: a chain of refreshes never loses the user. Starting from a live
    session of [U] and refreshing it into a first new identifier, that one
    into a second, and so on, every call succeeds with a token for [U], and
    the last identifier is a live session of [U]. *)
Theorem refresh_chain_keeps_user_X10 (ids : list string) (w : World)
  (S U : string) :
  S <> "" -> U <> "" ->
  Forall (fun s => s <> "") ids ->
  cache_lookup (now w) (cache w) S = Some U ->
  Forall (refreshed_for U) (fst (refresh_chain S ids w)) /\
  length (fst (refresh_chain S ids w)) = length ids /\
  cache_lookup (now (snd (refresh_chain S ids w)))
               (cache (snd (refresh_chain S ids w))) (List.last ids S) = Some U.
Proof.
  intros HS HU Hids. revert w S HS.
  induction Hids as [|s' rest Hs' Hrest IH]; intros w S HS Hget.
  - cbn. auto.
  - cbn [refresh_chain]. rewrite (refreshToken_success w S U s' HS HU Hget).
    set (w' := with_cache _ w).
    assert (Hget' : cache_lookup (now w') (cache w') s' = Some U)
      by apply lookup_fresh_entry.
    destruct (IH w' s' Hs' Hget') as (Hall & Hlen & Hlast).
    destruct (refresh_chain s' rest w') as [rs w''] eqn:Hchain.
    cbn [fst snd] in *. repeat split.
    + constructor; [|exact Hall]. eexists. split; reflexivity.
    + cbn. congruence.
    + destruct rest as [|s'' rest'].
      * cbn in Hchain. inversion Hchain; subst. exact Hget'.
      * change (List.last (s' :: s'' :: rest') S)
          with (List.last (s'' :: rest') S).
        rewrite (last_nonempty_default s'' rest' S s'). exact Hlast.
Qed.

Lemma refresh_chain_keeps_user_X10_witness :
  Forall (refreshed_for "42")
    (fst (refresh_chain "a1" ["b2"; "c3"; "d4"]
            (sample_world "production" RUNNING "1.0.0" (sessions "a1" "42")))) /\
  length (fst (refresh_chain "a1" ["b2"; "c3"; "d4"]
            (sample_world "production" RUNNING "1.0.0" (sessions "a1" "42")))) = 3 /\
  cache_lookup 100
    (cache (snd (refresh_chain "a1" ["b2"; "c3"; "d4"]
            (sample_world "production" RUNNING "1.0.0" (sessions "a1" "42")))))
    "d4" = Some "42".
Proof.
  apply (refresh_chain_keeps_user_X10 ["b2"; "c3"; "d4"]
           (sample_world "production" RUNNING "1.0.0" (sessions "a1" "42"))
           "a1" "42"); try discriminate.
  - repeat constructor; discriminate.
  - vm_compute. reflexivity.
Defined.

(** X11: the grace window can be renewed. After [S] was refreshed into
    [S2], refreshing [S] once more [d < 6] seconds later succeeds for the
    same user, and [S] then lives for 6 seconds counted from that second
    call: it is still a session of [U] less than 6 seconds after it and is
    absent from 6 seconds after it on. *)
Theorem refreshToken_renews_grace_X11 (w : World) (S U S2 S3 : string)
  (d d' : nat) :
  S <> "" -> U <> "" -> S2 <> S -> S3 <> S ->
  cache_lookup (now w) (cache w) S = Some U ->
  d < 6 ->
  refreshed_for U
    (result_of (AuthService.refreshToken S3 (Some S)
       (elapse d (world_of (AuthService.refreshToken S2 (Some S) w))))) /\
  session_after d'
    (world_of (AuthService.refreshToken S3 (Some S)
       (elapse d (world_of (AuthService.refreshToken S2 (Some S) w))))) S
  = if d' <? 6 then Some U else None.
Proof.
  intros HS HU H2 H3 Hget Hd.
  rewrite (refreshToken_success w S U S2 HS HU Hget).
  unfold world_of, result_of. cbn [snd].
  set (w1 := elapse d (with_cache _ w)).
  assert (Hget1 : cache_lookup (now w1) (cache w1) S = Some U).
  { unfold w1. cbn -[Nat.add].
    rewrite lookup_other_entry, lookup_armed_entry by congruence.
    destruct (Nat.ltb_spec (now w + d) (now w + 6)); [reflexivity|lia]. }
  rewrite (refreshToken_success w1 S U S3 HS HU Hget1). cbn [fst snd].
  split.
  - eexists. split; reflexivity.
  - unfold session_after. cbn -[Nat.add Nat.ltb].
    rewrite lookup_other_entry, lookup_armed_entry by congruence.
    destruct (Nat.ltb_spec d' 6),
             (Nat.ltb_spec (now w + d + d') (now w + d + 6));
      try reflexivity; lia.
Qed.

Lemma refreshToken_renews_grace_X11_witness :
  refreshed_for "42"
    (result_of (AuthService.refreshToken "c3" (Some "a1")
       (elapse 5 (world_of (AuthService.refreshToken "b2" (Some "a1")
          (sample_world "production" RUNNING "1.0.0" (sessions "a1" "42"))))))) /\
  session_after 5
    (world_of (AuthService.refreshToken "c3" (Some "a1")
       (elapse 5 (world_of (AuthService.refreshToken "b2" (Some "a1")
          (sample_world "production" RUNNING "1.0.0" (sessions "a1" "42")))))))
    "a1"
  = Some "42".
Proof.
  apply (refreshToken_renews_grace_X11
           (sample_world "production" RUNNING "1.0.0" (sessions "a1" "42"))
           "a1" "42" "b2" "c3" 5 5); try discriminate.
  - vm_compute. reflexivity.
  - lia.
Defined.

(** X12: a session that was logged out cannot be refreshed, at any later
    time: [refreshToken] on it returns [null] and changes nothing. *)
Theorem logout_then_refresh_X12 (w : World) (s v4 : string) (d : nat) :
  s <> "" ->
  AuthService.refreshToken v4 (Some s)
    (elapse d (world_of (AuthService.logout (Some s) w))) =
  (Ok None, elapse d (world_of (AuthService.logout (Some s) w))).
Proof.
  intros Hs. unfold AuthService.logout. rewrite (truthy_Some s Hs).
  unfold AuthService.refreshToken. rewrite (truthy_Some s Hs). cbn [negb].
  unfold bind at 1, cache_get, cache_lookup. cbn -[Nat.add].
  rewrite lookup_delete_eq. reflexivity.
Qed.

Lemma logout_then_refresh_X12_witness :
  AuthService.refreshToken "b2" (Some "a1")
    (elapse 3 (world_of (AuthService.logout (Some "a1")
       (sample_world "production" RUNNING "1.0.0" (sessions "a1" "42"))))) =
  (Ok None,
   elapse 3 (world_of (AuthService.logout (Some "a1")
       (sample_world "production" RUNNING "1.0.0" (sessions "a1" "42"))))).
Proof.
  apply (logout_then_refresh_X12
           (sample_world "production" RUNNING "1.0.0" (sessions "a1" "42"))
           "a1" "b2" 3).
  discriminate.
Defined.

(** X13: logging out the new session does not end the old one. After [S]
    was refreshed into [S2], [logout(S2)] removes [S2] for good, while [S]
    remains a session of [U] until its 6 seconds are over. *)
Theorem logout_new_keeps_old_X13 (w : World) (S U S2 : string) (d : nat) :
  S <> "" -> U <> "" -> S2 <> "" -> S2 <> S ->
  cache_lookup (now w) (cache w) S = Some U ->
  session_after d
    (world_of (AuthService.logout (Some S2)
       (world_of (AuthService.refreshToken S2 (Some S) w)))) S2 = None /\
  session_after d
    (world_of (AuthService.logout (Some S2)
       (world_of (AuthService.refreshToken S2 (Some S) w)))) S
  = if d <? 6 then Some U else None.
Proof.
  intros HS HU HS2 Hne Hget.
  rewrite (refreshToken_success w S U S2 HS HU Hget).
  unfold AuthService.logout. rewrite (truthy_Some S2 HS2).
  unfold session_after, world_of, cache_lookup, alive.
  cbn -[Nat.add Nat.ltb].
  rewrite lookup_delete_eq, lookup_delete_ne, lookup_insert_ne,
    lookup_insert_eq by congruence.
  split; [reflexivity|]. cbn -[Nat.add Nat.ltb].
  destruct (Nat.ltb_spec d 6), (Nat.ltb_spec (now w + d) (now w + 6));
    try reflexivity; lia.
Qed.

Lemma logout_new_keeps_old_X13_witness :
  session_after 5
    (world_of (AuthService.logout (Some "b2")
       (world_of (AuthService.refreshToken "b2" (Some "a1")
          (sample_world "production" RUNNING "1.0.0" (sessions "a1" "42"))))))
    "b2" = None /\
  session_after 5
    (world_of (AuthService.logout (Some "b2")
       (world_of (AuthService.refreshToken "b2" (Some "a1")
          (sample_world "production" RUNNING "1.0.0" (sessions "a1" "42"))))))
    "a1" = Some "42".
Proof.
  apply (logout_new_keeps_old_X13
           (sample_world "production" RUNNING "1.0.0" (sessions "a1" "42"))
           "a1" "42" "b2" 5); try discriminate.
  vm_compute. reflexivity.
Defined.

(** *** Sequences of session calls *)

Lemma cache_lookup_earlier (t d : nat) (m : gmap string Entry)
  (key u : string) :
  cache_lookup (t + d) m key = Some u -> cache_lookup t m key = Some u.
Proof.
  unfold cache_lookup, alive. destruct (m !! key) as [e|]; [|discriminate].
  destruct (expires e) as [x|]; [|auto].
  destruct (Nat.ltb_spec (t + d) x); [|discriminate].
  destruct (Nat.ltb_spec t x); [auto|lia].
Qed.

Lemma session_call_has_session (c : SessionCall) (w : World) (u : string) :
  has_session (session_call c w) u -> has_session w u.
Proof.
  intros (key & Hk). destruct c as [s|v4 s|d]; cbn [session_call] in Hk.
  - destruct (logout_world s w) as [H|(k & _ & _ & H)]; rewrite H in Hk.
    + exists key. exact Hk.
    + exists key. unfold cache_lookup in *. cbn in Hk.
      destruct (decide (k = key)) as [->|Hne].
      * rewrite lookup_delete_eq in Hk. discriminate.
      * rewrite lookup_delete_ne in Hk by exact Hne. exact Hk.
  - destruct (refreshToken_cases v4 s w)
      as [H|(S & U & _ & _ & _ & Hget & H)]; rewrite H in Hk.
    + exists key. exact Hk.
    + unfold world_of in Hk. cbn [snd with_cache now cache] in Hk.
      destruct (decide (v4 = key)) as [->|Hne].
      * rewrite lookup_fresh_entry in Hk. inversion Hk; subst.
        exists S. exact Hget.
      * rewrite lookup_other_entry in Hk by exact Hne.
        destruct (decide (S = key)) as [->|Hne'].
        -- rewrite lookup_armed_entry in Hk.
           destruct (now w <? now w + 6); inversion Hk; subst.
           exists key. exact Hget.
        -- rewrite lookup_other_entry in Hk by exact Hne'.
           exists key. exact Hk.
  - exists key. apply (cache_lookup_earlier (now w) d). exact Hk.
Qed.

(** X14: [logout] and [refreshToken] give no user a session who had none.
    Over any sequence of calls of the two, with any time passing in between,
    a user bound to a live session at the end was bound to a live session
    at the start. *)
Theorem session_calls_mint_nothing_X14 (cs : list SessionCall) (w : World)
  (u : string) :
  has_session (session_calls cs w) u -> has_session w u.
Proof.
  revert w. induction cs as [|c cs IH]; intros w H; [exact H|].
  change (session_calls (c :: cs) w)
    with (session_calls cs (session_call c w)) in H.
  eauto using session_call_has_session.
Qed.

Lemma session_calls_mint_nothing_X14_witness :
  has_session (sample_world "production" RUNNING "1.0.0" (sessions "a1" "42"))
              "42".
Proof.
  apply (session_calls_mint_nothing_X14
           [CallRefreshToken "b2" (Some "a1"); SessionWait 7;
            CallLogout (Some "a1"); CallRefreshToken "c3" (Some "b2")]
           (sample_world "production" RUNNING "1.0.0" (sessions "a1" "42"))).
  exists "c3". vm_compute. reflexivity.
Defined.

Lemma session_call_frame (c : SessionCall) (w : World) :
  config (session_call c w) = config w /\
  events (session_call c w) = events w /\
  requests (session_call c w) = requests w /\
  logged (session_call c w) = logged w.
Proof.
  destruct c as [s|v4 s|d]; cbn [session_call].
  - destruct (logout_world s w) as [H|(k & _ & _ & H)]; rewrite H; auto.
  - destruct (refreshToken_cases v4 s w) as [H|(S & U & _ & _ & _ & _ & H)];
      rewrite H; auto.
  - auto.
Qed.

(** X15: [logout] and [refreshToken] touch the cache only. Over any
    sequence of calls of the two, the configuration (the system status in
    it), the published events, the requests sent and the log are at the end
    what they were at the start. *)
Theorem session_calls_frame_X15 (cs : list SessionCall) (w : World) :
  config (session_calls cs w) = config w /\
  events (session_calls cs w) = events w /\
  requests (session_calls cs w) = requests w /\
  logged (session_calls cs w) = logged w.
Proof.
  revert w. induction cs as [|c cs IH]; intros w; [auto|].
  change (session_calls (c :: cs) w) with (session_calls cs (session_call c w)).
  destruct (IH (session_call c w)) as (H1 & H2 & H3 & H4).
  destruct (session_call_frame c w) as (G1 & G2 & G3 & G4).
  repeat split; congruence.
Qed.

(** ** Properties of the instance methods of AuthServiceClass *)

Lemma little_succ_not_nil (d : Decimal.uint) :
  Decimal.Little.succ d <> Decimal.Nil.
Proof. destruct d; discriminate. Qed.

Lemma to_little_uint_not_nil (n : nat) (acc : Decimal.uint) :
  acc <> Decimal.Nil -> Nat.to_little_uint n acc <> Decimal.Nil.
Proof.
  revert acc. induction n as [|n IH]; intros acc H; cbn; [exact H|].
  apply IH, little_succ_not_nil.
Qed.

Lemma revapp_not_nil (d d' : Decimal.uint) :
  d' <> Decimal.Nil -> Decimal.revapp d d' <> Decimal.Nil.
Proof.
  revert d'. induction d; intros d' H; cbn; auto; apply IHd; discriminate.
Qed.

Lemma rev_not_nil (d : Decimal.uint) :
  d <> Decimal.Nil -> Decimal.rev d <> Decimal.Nil.
Proof.
  unfold Decimal.rev. destruct d; intros H; try contradiction; cbn;
    apply revapp_not_nil; discriminate.
Qed.

(** The decimal text of a number is never empty. *)
Lemma Number_toString_nonempty (n : nat) : Number_toString n <> "".
Proof.
  unfold Number_toString, Nat.to_uint.
  pose proof (rev_not_nil (Nat.to_little_uint n Decimal.zero)
                (to_little_uint_not_nil n Decimal.zero ltac:(discriminate))) as H.
  destruct (Decimal.rev _); [contradiction|..]; discriminate.
Qed.

Lemma login_closed_form (L : Libraries) (v4 : string)
  (input : UsernamePasswordInput) (s : Store) :
  AuthServiceClass.login L v4 input s =
  match List.find (by_username (normalised L (input_username input))) (users s) with
  | None => (Throw (Error "User not found"), s)
  | Some u =>
      match argon2_verify L (Db.password u) (input_password input) with
      | Throw e => (Throw e, s)
      | Ok false => (Throw (Error "Wrong password"), s)
      | Ok true =>
          (Ok (mkSessionJwt (Db.id u) v4 (jwtSecret (config (world s))) "7d"),
           with_world
             (with_cache (<[v4 := mkEntry (Number_toString (Db.id u)) None]>
                            (cache (world s))) (world s)) s)
      end
  end.
Proof.
  unfold AuthServiceClass.login, bindS at 1, findUnique_username, by_username,
    normalised.
  destruct (List.find _ (users s)) as [u|]; [|reflexivity].
  unfold bindS at 1.
  destruct (argon2_verify L (Db.password u) (input_password input)) as [[|]|e];
    reflexivity.
Qed.

Lemma register_closed_form (L : Libraries) (v4 hash : string)
  (input : UsernamePasswordInput) (s : Store) :
  AuthServiceClass.register L v4 hash input s =
  match List.find Db.operator (users s) with
  | Some _ => (Throw admin_exists, s)
  | None =>
      if negb (truthy (Some (input_username input)))
         || negb (truthy (Some (input_password input)))
      then (Throw (Error "Missing email or password"), s)
      else if (String.length (input_username input) <? 3)
              || negb (isEmail L (normalised L (input_username input)))
      then (Throw (Error "Invalid username"), s)
      else
        match List.find (by_username (normalised L (input_username input)))
                        (users s) with
        | Some _ => (Throw (Error "User already exists"), s)
        | None =>
            if existsb (fun u => by_username (normalised L (input_username input)) u
                                 || Nat.eqb (Db.id u) (S (user_id_seq s)))
                       (users s)
            then (Throw (Error "Unique constraint failed"),
                  with_user_id_seq (S (user_id_seq s)) s)
            else (Ok (mkSessionJwt (S (user_id_seq s)) v4
                                   (jwtSecret (config (world s))) "1d"),
                  registered L v4 hash input s)
        end
  end.
Proof.
  unfold AuthServiceClass.register, bindS at 1, findFirst_operator, by_username,
    normalised, admin_exists.
  destruct (List.find Db.operator (users s)); [reflexivity|].
  destruct (negb (truthy (Some (input_username input)))
            || negb (truthy (Some (input_password input)))); [reflexivity|].
  destruct ((String.length (input_username input) <? 3)
            || negb (isEmail L (toLowerCase L (trim L (input_username input)))));
    [reflexivity|].
  unfold bindS at 1, findUnique_username.
  destruct (List.find _ (users s)); [reflexivity|].
  unfold bindS at 1, create_user.
  destruct (existsb _ (users s)); reflexivity.
Qed.

Lemma find_none_existsb {A} (p : A -> bool) (l : list A) :
  List.find p l = None -> existsb p l = false.
Proof.
  induction l as [|x l IH]; cbn; [reflexivity|].
  destruct (p x); [discriminate|]. exact IH.
Qed.

Lemma find_app_none {A} (p : A -> bool) (l l' : list A) :
  List.find p l = None -> List.find p (l ++ l') = List.find p l'.
Proof.
  induction l as [|x l IH]; cbn; [reflexivity|].
  destruct (p x); [discriminate|]. exact IH.
Qed.

Lemma find_app_some {A} (p : A -> bool) (l l' : list A) (x : A) :
  List.find p l = Some x -> List.find p (l ++ l') = Some x.
Proof.
  induction l as [|y l IH]; cbn; [discriminate|].
  destruct (p y); [auto|]. exact IH.
Qed.

Lemma ids_below_no_next (l : list Db.User) (n : nat) :
  Forall (fun u => Db.id u <= n) l ->
  List.find (fun u => Nat.eqb (Db.id u) (S n)) l = None.
Proof.
  induction 1 as [|u l Hu _ IH]; cbn; [reflexivity|].
  destruct (Nat.eqb_spec (Db.id u) (S n)); [lia|]. exact IH.
Qed.

Lemma existsb_or_false {A} (p q : A -> bool) (l : list A) :
  existsb p l = false -> existsb q l = false ->
  existsb (fun x => p x || q x) l = false.
Proof.
  induction l as [|x l IH]; cbn; [reflexivity|].
  destruct (p x), (q x); cbn; try discriminate. exact IH.
Qed.

(** X16: a [login] that throws leaves the store as it was (no session is
    written), and it throws 'User not found' when no row has the normalised
    username, 'Wrong password' when [argon2.verify] answers [false] for the
    row found, and otherwise what [argon2.verify] itself threw. *)
Theorem login_failure_X16 (L : Libraries) (v4 : string)
  (input : UsernamePasswordInput) (s : Store) (e : Exn) :
  fst (AuthServiceClass.login L v4 input s) = Throw e ->
  snd (AuthServiceClass.login L v4 input s) = s /\
  ((List.find (by_username (normalised L (input_username input))) (users s) = None
    /\ e = Error "User not found") \/
   exists u,
     List.find (by_username (normalised L (input_username input))) (users s) = Some u /\
     ((argon2_verify L (Db.password u) (input_password input) = Ok false
       /\ e = Error "Wrong password") \/
      argon2_verify L (Db.password u) (input_password input) = Throw e)).
Proof.
  rewrite login_closed_form.
  destruct (List.find _ (users s)) as [u|].
  - destruct (argon2_verify L (Db.password u) (input_password input))
      as [[|]|e'] eqn:Hv; cbn; intros [= <-]; eauto 8.
  - cbn. intros [= <-]. auto.
Qed.

Lemma login_failure_X16_witness :
  snd (AuthServiceClass.login sample_libraries "b2" (mkInput "Admin@example.com" "guess")
         (sample_store [Db.mkUser 1 "admin@example.com" "$argon2id$pw" true] 1 false))
  = sample_store [Db.mkUser 1 "admin@example.com" "$argon2id$pw" true] 1 false.
Proof.
  apply (login_failure_X16 sample_libraries "b2"
           (mkInput "Admin@example.com" "guess")
           (sample_store [Db.mkUser 1 "admin@example.com" "$argon2id$pw" true] 1 false)
           (Error "Wrong password")).
  vm_compute. reflexivity.
Defined.

(** X17: the session a successful [login] writes is one [refreshToken]
    accepts. When the row found for the normalised username passes
    [argon2.verify], [login] returns a token carrying the row's [id] and the
    new session identifier, leaves the user table alone, and a
    [refreshToken] on that identifier succeeds for the user whose
    identifier is the decimal text of [id]. *)
Theorem login_session_refreshable_X17 (L : Libraries) (v4 v4' : string)
  (input : UsernamePasswordInput) (s : Store) (u : Db.User) :
  List.find (by_username (normalised L (input_username input))) (users s) = Some u ->
  argon2_verify L (Db.password u) (input_password input) = Ok true ->
  v4 <> "" ->
  exists tok s1,
    AuthServiceClass.login L v4 input s = (Ok tok, s1) /\
    payload_id tok = Db.id u /\
    payload_session tok = v4 /\
    users s1 = users s /\
    refreshed_for (Number_toString (Db.id u))
      (fst (AuthServiceClass.refreshToken v4' (Some v4) s1)).
Proof.
  intros Hf Hv Hne. rewrite login_closed_form, Hf, Hv.
  eexists _, _. split; [reflexivity|]. repeat split.
  unfold AuthServiceClass.refreshToken, lift. cbn [world with_world].
  set (w1 := with_cache _ (world s)).
  assert (Hget : cache_lookup (now w1) (cache w1) v4
                 = Some (Number_toString (Db.id u)))
    by apply lookup_fresh_entry.
  rewrite (refreshToken_success w1 v4 (Number_toString (Db.id u)) v4' Hne
             (Number_toString_nonempty _) Hget).
  cbn [fst]. eexists. split; reflexivity.
Qed.

Lemma login_session_refreshable_X17_witness :
  exists tok s1,
    AuthServiceClass.login sample_libraries "b2" (mkInput " Admin@Example.com" "pw")
      (sample_store [Db.mkUser 7 "admin@example.com" "$argon2id$pw" true] 7 false)
      = (Ok tok, s1) /\
    payload_id tok = 7 /\
    payload_session tok = "b2" /\
    users s1 = [Db.mkUser 7 "admin@example.com" "$argon2id$pw" true] /\
    refreshed_for "7" (fst (AuthServiceClass.refreshToken "c3" (Some "b2") s1)).
Proof.
  apply (login_session_refreshable_X17 sample_libraries "b2" "c3"
           (mkInput " Admin@Example.com" "pw")
           (sample_store [Db.mkUser 7 "admin@example.com" "$argon2id$pw" true] 7 false)
           (Db.mkUser 7 "admin@example.com" "$argon2id$pw" true));
    try (vm_compute; reflexivity); discriminate.
Defined.

Lemma register_succeeds (L : Libraries) (v4 hash : string)
  (input : UsernamePasswordInput) (s : Store) :
  table_ok s ->
  List.find Db.operator (users s) = None ->
  input_username input <> "" ->
  input_password input <> "" ->
  3 <= String.length (input_username input) ->
  isEmail L (normalised L (input_username input)) = true ->
  List.find (by_username (normalised L (input_username input))) (users s) = None ->
  AuthServiceClass.register L v4 hash input s =
    (Ok (mkSessionJwt (S (user_id_seq s)) v4 (jwtSecret (config (world s))) "1d"),
     registered L v4 hash input s).
Proof.
  intros Hok Hop Hu Hp Hlen Hmail Hfree.
  rewrite register_closed_form, Hop, (truthy_Some _ Hu), (truthy_Some _ Hp),
    Hmail, Hfree.
  destruct (Nat.ltb_spec (String.length (input_username input)) 3); [lia|].
  cbn [negb orb].
  rewrite existsb_or_false; [reflexivity| |].
  - apply find_none_existsb, Hfree.
  - apply find_none_existsb, ids_below_no_next, (ids_from_sequence s Hok).
Qed.

(** X18: registration round trip. On a well-formed table without operator,
    for a non-empty password and a username of three characters or more
    whose normal form is an e-mail address not yet in the table, [register]
    succeeds: the new row is the only change to the table, an operator with
    the normalised username, the given hash and the next [id] of the
    sequence. After it, [me] on that [id] returns the [id] and the
    normalised username, and, when [argon2.verify] accepts the password for
    the hash, [login] with the same input succeeds for that [id]. *)
Theorem register_round_trip_X18 (L : Libraries) (v4 v4' hash : string)
  (input : UsernamePasswordInput) (s : Store) :
  table_ok s ->
  List.find Db.operator (users s) = None ->
  input_username input <> "" ->
  input_password input <> "" ->
  3 <= String.length (input_username input) ->
  isEmail L (normalised L (input_username input)) = true ->
  List.find (by_username (normalised L (input_username input))) (users s) = None ->
  argon2_verify L hash (input_password input) = Ok true ->
  exists tok s1,
    AuthServiceClass.register L v4 hash input s = (Ok tok, s1) /\
    payload_id tok = S (user_id_seq s) /\
    users s1 = (users s ++ [Db.mkUser (S (user_id_seq s))
                              (normalised L (input_username input)) hash true])%list /\
    AuthServiceClass.me (Some (S (user_id_seq s))) s1 =
      (Ok (Some (S (user_id_seq s), normalised L (input_username input))), s1) /\
    exists tok' s2,
      AuthServiceClass.login L v4' input s1 = (Ok tok', s2) /\
      payload_id tok' = S (user_id_seq s).
Proof.
  intros Hok Hop Hu Hp Hlen Hmail Hfree Hverify.
  rewrite (register_succeeds L v4 hash input s Hok Hop Hu Hp Hlen Hmail Hfree).
  eexists _, _. split; [reflexivity|]. repeat split.
  - unfold AuthServiceClass.me, bindS, findUnique_id. cbn [users registered].
    rewrite find_app_none by apply ids_below_no_next, (ids_from_sequence s Hok).
    cbn. rewrite Nat.eqb_refl. reflexivity.
  - rewrite login_closed_form. cbn [users registered].
    rewrite (find_app_none _ _ _ Hfree). cbn [List.find].
    unfold by_username at 1. cbn [Db.username].
    rewrite String.eqb_refl. cbn [Db.password]. rewrite Hverify.
    eexists _, _. split; reflexivity.
Qed.

Lemma register_round_trip_X18_witness :
  exists tok s1,
    AuthServiceClass.register sample_libraries "a1" "$argon2id$pw"
      (mkInput " Admin@Example.com " "pw") (sample_store [] 0 false) = (Ok tok, s1) /\
    payload_id tok = 1 /\
    users s1 = [Db.mkUser 1 "admin@example.com" "$argon2id$pw" true] /\
    AuthServiceClass.me (Some 1) s1 = (Ok (Some (1, "admin@example.com")), s1) /\
    exists tok' s2,
      AuthServiceClass.login sample_libraries "b2"
        (mkInput " Admin@Example.com " "pw") s1 = (Ok tok', s2) /\
      payload_id tok' = 1.
Proof.
  apply (register_round_trip_X18 sample_libraries "a1" "b2" "$argon2id$pw"
           (mkInput " Admin@Example.com " "pw") (sample_store [] 0 false));
    try (vm_compute; reflexivity); try discriminate.
  - repeat constructor.
  - cbn. lia.
Defined.

(** X19: [register] works once. When a [register] succeeds, [isConfigured]
    answered [false] before it and answers [true] after it, and every
    further [register], whatever its input, throws 'There is already an
    admin user ...' and changes nothing. *)
Theorem register_once_X19 (L L' : Libraries) (v4 hash v4' hash' : string)
  (input input' : UsernamePasswordInput) (s : Store) (tok : SessionJwt) :
  fst (AuthServiceClass.register L v4 hash input s) = Ok tok ->
  AuthServiceClass.isConfigured s = (Ok false, s) /\
  AuthServiceClass.isConfigured (snd (AuthServiceClass.register L v4 hash input s))
    = (Ok true, snd (AuthServiceClass.register L v4 hash input s)) /\
  AuthServiceClass.register L' v4' hash' input'
    (snd (AuthServiceClass.register L v4 hash input s))
    = (Throw admin_exists, snd (AuthServiceClass.register L v4 hash input s)).
Proof.
  rewrite !register_closed_form.
  destruct (List.find Db.operator (users s)) eqn:Hop; [discriminate|].
  destruct (_ || _); [discriminate|].
  destruct (_ || _); [discriminate|].
  destruct (List.find (by_username _) (users s)); [discriminate|].
  destruct (existsb _ (users s)); [discriminate|]. intros _.
  cbn [snd users registered].
  assert (Hnone : List.filter Db.operator (users s) = []).
  { clear -Hop. induction (users s) as [|u l IH]; cbn in *; [reflexivity|].
    destruct (Db.operator u); [discriminate|]. auto. }
  repeat split.
  - unfold AuthServiceClass.isConfigured, bindS, count_operator.
    rewrite Hnone. reflexivity.
  - unfold AuthServiceClass.isConfigured, bindS, count_operator.
    cbn [users registered]. rewrite List.filter_app, Hnone. reflexivity.
  - rewrite (find_app_none _ _ _ Hop). reflexivity.
Qed.

Lemma register_once_X19_witness :
  AuthServiceClass.isConfigured (sample_store [] 0 false)
    = (Ok false, sample_store [] 0 false) /\
  AuthServiceClass.isConfigured
    (snd (AuthServiceClass.register sample_libraries "a1" "$argon2id$pw"
            (mkInput "admin@example.com" "pw") (sample_store [] 0 false)))
    = (Ok true,
       snd (AuthServiceClass.register sample_libraries "a1" "$argon2id$pw"
              (mkInput "admin@example.com" "pw") (sample_store [] 0 false))) /\
  AuthServiceClass.register sample_libraries "b2" "$argon2id$other"
    (mkInput "second@example.com" "other")
    (snd (AuthServiceClass.register sample_libraries "a1" "$argon2id$pw"
            (mkInput "admin@example.com" "pw") (sample_store [] 0 false)))
    = (Throw admin_exists,
       snd (AuthServiceClass.register sample_libraries "a1" "$argon2id$pw"
              (mkInput "admin@example.com" "pw") (sample_store [] 0 false))).
Proof.
  apply (register_once_X19 sample_libraries sample_libraries
           "a1" "$argon2id$pw" "b2" "$argon2id$other"
           (mkInput "admin@example.com" "pw")
           (mkInput "second@example.com" "other")
           (sample_store [] 0 false)
           (mkSessionJwt 1 "a1" "secret" "1d")).
  vm_compute. reflexivity.
Defined.

(** X20: a [register] that throws creates nothing: the user table, the
    world (no session is written) and the request file are as before. *)
Theorem register_failure_X20 (L : Libraries) (v4 hash : string)
  (input : UsernamePasswordInput) (s : Store) (e : Exn) :
  fst (AuthServiceClass.register L v4 hash input s) = Throw e ->
  users (snd (AuthServiceClass.register L v4 hash input s)) = users s /\
  world (snd (AuthServiceClass.register L v4 hash input s)) = world s /\
  password_change_request (snd (AuthServiceClass.register L v4 hash input s))
    = password_change_request s.
Proof.
  rewrite register_closed_form.
  destruct (List.find Db.operator (users s)); [auto|].
  destruct (_ || _); [auto|].
  destruct (_ || _); [auto|].
  destruct (List.find (by_username _) (users s)); [auto|].
  destruct (existsb _ (users s)); [auto|]. discriminate.
Qed.

Lemma register_failure_X20_witness :
  users (snd (AuthServiceClass.register sample_libraries "a1" "$argon2id$pw"
                (mkInput "no-address" "pw") (sample_store [] 0 false))) = [] /\
  world (snd (AuthServiceClass.register sample_libraries "a1" "$argon2id$pw"
                (mkInput "no-address" "pw") (sample_store [] 0 false)))
    = sample_world "production" RUNNING "1.0.0" ∅ /\
  password_change_request
    (snd (AuthServiceClass.register sample_libraries "a1" "$argon2id$pw"
            (mkInput "no-address" "pw") (sample_store [] 0 false))) = false.
Proof.
  apply (register_failure_X20 sample_libraries "a1" "$argon2id$pw"
           (mkInput "no-address" "pw") (sample_store [] 0 false)
           (Error "Invalid username")).
  vm_compute. reflexivity.
Defined.

(** *** Sequences of calls on the store *)

Lemma find_some_existsb_id (p : Db.User -> bool) (l : list Db.User) (u : Db.User) :
  List.find p l = Some u ->
  existsb (fun x => Nat.eqb (Db.id x) (Db.id u)) l = true.
Proof.
  intros H. apply List.find_some in H as [Hin _].
  apply List.existsb_exists. exists u. split; [exact Hin|apply Nat.eqb_refl].
Qed.

Lemma changePassword_closed_form (hash newPassword : string) (s : Store) :
  AuthServiceClass.changePassword hash newPassword s =
  if password_change_request s then
    match List.find Db.operator (users s) with
    | None => (Throw (Error "Operator user not found"), s)
    | Some u =>
        (Ok (Db.username u),
         with_password_change_request false
           (with_users (List.map (set_password (Db.id u) hash) (users s)) s))
    end
  else (Throw (Error "No password change request found"), s).
Proof.
  unfold AuthServiceClass.changePassword,
    AuthServiceClass.checkPasswordChangeRequest, bindS, fileExists_request.
  destruct (password_change_request s) eqn:Hreq; [|reflexivity].
  cbn [negb retS]. unfold findFirst_operator.
  destruct (List.find Db.operator (users s)) as [u|] eqn:Hop; [|reflexivity].
  unfold update_password. rewrite (find_some_existsb_id _ _ _ Hop).
  unfold unlinkFile_request. cbn. rewrite Hreq. reflexivity.
Qed.

Lemma cancel_closed_form (s : Store) :
  AuthServiceClass.cancelPasswordChangeRequest s =
    (Ok true, if password_change_request s
              then with_password_change_request false s else s).
Proof.
  unfold AuthServiceClass.cancelPasswordChangeRequest, bindS,
    fileExists_request, unlinkFile_request.
  destruct (password_change_request s) eqn:Hreq; [|reflexivity].
  rewrite Hreq. reflexivity.
Qed.

Lemma me_store (userId : option nat) (s : Store) :
  snd (AuthServiceClass.me userId s) = s.
Proof.
  destruct userId as [[|i]|]; try reflexivity.
  unfold AuthServiceClass.me, bindS, findUnique_id.
  destruct (List.find _ (users s)); reflexivity.
Qed.

Lemma lift_table {A} (m : M A) (s : Store) :
  users (snd (lift m s)) = users s /\
  user_id_seq (snd (lift m s)) = user_id_seq s /\
  password_change_request (snd (lift m s)) = password_change_request s.
Proof. unfold lift. destruct (m (world s)). auto. Qed.

Lemma auth_call_step (L : Libraries) (c : AuthCall) (s : Store) :
  table_step s (auth_call L c s).
Proof.
  destruct c as [v4 input|v4 hash input|userId| |hash newPassword| | |session
                |v4 session| |d]; cbn [auth_call].
  - rewrite login_closed_form.
    destruct (List.find _ (users s)) as [u|]; [|apply step_same; auto].
    destruct (argon2_verify L _ _) as [[|]|e]; apply step_same; auto.
  - rewrite register_closed_form.
    destruct (List.find Db.operator (users s)) eqn:Hop; [apply step_same; auto|].
    destruct (_ || _); [apply step_same; auto|].
    destruct (_ || _); [apply step_same; auto|].
    destruct (List.find (by_username _) (users s)) eqn:Hfree;
      [apply step_same; auto|].
    destruct (existsb _ (users s)); [apply step_same; cbn; auto|].
    eapply step_insert; cbn; eauto.
  - rewrite me_store. apply step_same; auto.
  - apply step_same; auto.
  - rewrite changePassword_closed_form.
    destruct (password_change_request s); [|apply step_same; auto].
    destruct (List.find Db.operator (users s)) as [u|]; [|apply step_same; auto].
    eapply step_password; reflexivity.
  - unfold AuthServiceClass.checkPasswordChangeRequest, bindS, fileExists_request.
    destruct (password_change_request s); apply step_same; auto.
  - rewrite cancel_closed_form.
    destruct (password_change_request s); apply step_same; auto.
  - destruct (lift_table (AuthService.logout session) s) as (Hu & Hs & _).
    apply step_same; [exact Hu|]. unfold AuthServiceClass.logout.
    rewrite Hs. auto.
  - destruct (lift_table (AuthService.refreshToken v4 session) s) as (Hu & Hs & _).
    apply step_same; [exact Hu|]. unfold AuthServiceClass.refreshToken.
    rewrite Hs. auto.
  - apply step_same; auto.
  - apply step_same; auto.
Qed.

Lemma map_set_password_username (i : nat) (hash : string) (l : list Db.User) :
  List.map Db.username (List.map (set_password i hash) l) = List.map Db.username l.
Proof.
  rewrite List.map_map. apply List.map_ext. intros u. unfold set_password.
  destruct (Nat.eqb _ _); reflexivity.
Qed.

Lemma map_set_password_id (i : nat) (hash : string) (l : list Db.User) :
  List.map Db.id (List.map (set_password i hash) l) = List.map Db.id l.
Proof.
  rewrite List.map_map. apply List.map_ext. intros u. unfold set_password.
  destruct (Nat.eqb _ _); reflexivity.
Qed.

Lemma filter_operator_set_password (i : nat) (hash : string) (l : list Db.User) :
  length (List.filter Db.operator (List.map (set_password i hash) l)) =
  length (List.filter Db.operator l).
Proof.
  induction l as [|u l IH]; [reflexivity|]. cbn [List.map List.filter].
  replace (Db.operator (set_password i hash u)) with (Db.operator u)
    by (unfold set_password; destruct (Nat.eqb _ _); reflexivity).
  destruct (Db.operator u); cbn [length]; congruence.
Qed.

Lemma find_username_none_not_in (name : string) (l : list Db.User) :
  List.find (by_username name) l = None -> ~ In name (List.map Db.username l).
Proof.
  induction l as [|u l IH]; cbn; [tauto|]. unfold by_username at 1.
  destruct (String.eqb_spec (Db.username u) name); [discriminate|].
  intros H [Heq|Hin]; [contradiction|]. exact (IH H Hin).
Qed.

Lemma table_step_ok (s s' : Store) :
  table_step s s' -> table_ok s -> table_ok s'.
Proof.
  intros Hstep [Hn Hi Hf]. destruct Hstep as [Hu Hs|row Hu Hs Hid Hop Hfree _|i h Hu Hs].
  - constructor; rewrite Hu; auto.
    eapply Forall_impl; [exact Hf|]. cbn. intros; lia.
  - constructor; rewrite Hu.
    + rewrite List.map_app. apply NoDup_app. repeat split; auto.
      * intros x Hx Hrow. apply list_elem_of_singleton in Hrow. subst x.
        apply list_elem_of_In in Hx.
        exact (find_username_none_not_in _ _ Hfree Hx).
      * apply NoDup_singleton.
    + rewrite List.map_app. apply NoDup_app. repeat split; auto.
      * intros x Hx Hrow. apply list_elem_of_singleton in Hrow. subst x.
        apply list_elem_of_In, List.in_map_iff in Hx as (u & Hux & Hin).
        rewrite Forall_forall in Hf.
        specialize (Hf u (proj2 (list_elem_of_In _ _) Hin)).
        cbn in Hf. lia.
      * apply NoDup_singleton.
    + apply Forall_app. split.
      * eapply Forall_impl; [exact Hf|]. cbn. intros; lia.
      * constructor; [lia|constructor].
  - constructor; rewrite Hu, ?map_set_password_username, ?map_set_password_id, ?Hs;
      auto.
    apply Forall_forall. intros x Hx.
    apply list_elem_of_In, List.in_map_iff in Hx as (u & <- & Hin).
    rewrite Forall_forall in Hf. specialize (Hf u (proj2 (list_elem_of_In _ _) Hin)).
    unfold set_password. destruct (Nat.eqb _ _); exact Hf.
Qed.

(** X21: the service keeps the user table as the schema wants it. Over any
    sequence of calls on a table where usernames and ids are unique and no
    id is beyond the sequence, with password-change requests and time
    passing in between, the table at the end is again such a table, and no
    row that was there has gone or changed its [id] or [username]. *)
Theorem auth_calls_table_ok_X21 (L : Libraries) (cs : list AuthCall) (s : Store) :
  table_ok s ->
  table_ok (auth_calls L cs s) /\
  (forall u, In u (users s) ->
     exists u', In u' (users (auth_calls L cs s)) /\
       Db.id u' = Db.id u /\ Db.username u' = Db.username u /\
       Db.operator u' = Db.operator u).
Proof.
  revert s. induction cs as [|c cs IH]; intros s Hok.
  - split; [exact Hok|]. intros u Hu. exists u. auto.
  - change (auth_calls L (c :: cs) s) with (auth_calls L cs (auth_call L c s)).
    pose proof (auth_call_step L c s) as Hstep.
    destruct (IH _ (table_step_ok _ _ Hstep Hok)) as (Hok' & Hkeep).
    split; [exact Hok'|]. intros u Hu.
    assert (Hmid : exists u1, In u1 (users (auth_call L c s)) /\
              Db.id u1 = Db.id u /\ Db.username u1 = Db.username u /\
              Db.operator u1 = Db.operator u).
    { destruct Hstep as [Heq _|row Heq _ _ _ _ _|i h Heq _]; rewrite Heq.
      - exists u. auto.
      - exists u. split; [apply List.in_or_app; auto|auto].
      - exists (set_password i h u). split; [apply List.in_map, Hu|].
        unfold set_password. destruct (Nat.eqb _ _); auto. }
    destruct Hmid as (u1 & Hin1 & Hid1 & Hn1 & Hop1).
    destruct (Hkeep u1 Hin1) as (u' & Hin' & Hid' & Hn' & Hop').
    exists u'. repeat split; congruence.
Qed.

Lemma auth_calls_table_ok_X21_witness :
  table_ok
    (auth_calls sample_libraries
       [CallRegister "a1" "$argon2id$pw" (mkInput "admin@example.com" "pw");
        RequestPasswordChange;
        CallChangePassword "$argon2id$new" "new";
        CallRegister "b2" "$argon2id$pw" (mkInput "other@example.com" "pw");
        CallLogin "c3" (mkInput "admin@example.com" "new")]
       (sample_store [] 0 false)).
Proof.
  apply (auth_calls_table_ok_X21 sample_libraries
           [CallRegister "a1" "$argon2id$pw" (mkInput "admin@example.com" "pw");
            RequestPasswordChange;
            CallChangePassword "$argon2id$new" "new";
            CallRegister "b2" "$argon2id$pw" (mkInput "other@example.com" "pw");
            CallLogin "c3" (mkInput "admin@example.com" "new")]
           (sample_store [] 0 false)).
  constructor; cbn; constructor.
Defined.

Lemma table_step_operators (s s' : Store) :
  table_step s s' -> operators s <= 1 -> operators s' <= 1.
Proof.
  unfold operators.
  intros [Hu _|row Hu _ _ Hop _ Hnone|i h Hu _] H; rewrite Hu.
  - exact H.
  - rewrite List.filter_app, List.length_app. cbn. rewrite Hop. cbn.
    assert (Hempty : List.filter Db.operator (users s) = []).
    { clear -Hnone. induction (users s) as [|u l IH]; cbn in *; [reflexivity|].
      destruct (Db.operator u); [discriminate|]. auto. }
    rewrite Hempty. cbn. lia.
  - rewrite filter_operator_set_password. exact H.
Qed.

(** X22: the service never makes a second operator. Over any sequence of
    calls on a table with at most one operator row, the table at the end
    has at most one operator row. *)
Theorem auth_calls_one_operator_X22 (L : Libraries) (cs : list AuthCall)
  (s : Store) :
  operators s <= 1 -> operators (auth_calls L cs s) <= 1.
Proof.
  revert s. induction cs as [|c cs IH]; intros s H; [exact H|].
  change (auth_calls L (c :: cs) s) with (auth_calls L cs (auth_call L c s)).
  apply IH. eapply table_step_operators; [apply auth_call_step|exact H].
Qed.

Lemma auth_calls_one_operator_X22_witness :
  operators
    (auth_calls sample_libraries
       [CallRegister "a1" "$argon2id$pw" (mkInput "admin@example.com" "pw");
        CallRegister "b2" "$argon2id$pw" (mkInput "other@example.com" "pw");
        CallStoreLogout (Some "a1");
        CallRegister "c3" "$argon2id$pw" (mkInput "third@example.com" "pw")]
       (sample_store [] 0 false)) <= 1.
Proof.
  apply (auth_calls_one_operator_X22 sample_libraries
           [CallRegister "a1" "$argon2id$pw" (mkInput "admin@example.com" "pw");
            CallRegister "b2" "$argon2id$pw" (mkInput "other@example.com" "pw");
            CallStoreLogout (Some "a1");
            CallRegister "c3" "$argon2id$pw" (mkInput "third@example.com" "pw")]
           (sample_store [] 0 false)).
  cbn. lia.
Defined.

(** *** Changing the password *)

Lemma set_password_own (hash : string) (u : Db.User) :
  set_password (Db.id u) hash u = with_password hash u.
Proof. unfold set_password. rewrite Nat.eqb_refl. reflexivity. Qed.

Lemma set_password_other (i : nat) (hash : string) (x : Db.User) :
  Db.id x <> i -> set_password i hash x = x.
Proof.
  intros H. unfold set_password.
  destruct (Nat.eqb_spec (Db.id x) i); [contradiction|reflexivity].
Qed.

(** X23: a password change request serves once and ends no session. With
    the request file present and an operator [u] in the table,
    [changePassword] returns the username of [u], stores the new hash in
    the row of [u], leaves every row with another [id] and the whole world
    (the cache with its sessions) as they were, and removes the file: the
    next [changePassword] throws 'No password change request found' and
    changes nothing. *)
Theorem changePassword_one_shot_X23 (hash hash' newPassword newPassword' : string)
  (s : Store) (u : Db.User) :
  password_change_request s = true ->
  List.find Db.operator (users s) = Some u ->
  exists s1,
    AuthServiceClass.changePassword hash newPassword s = (Ok (Db.username u), s1) /\
    world s1 = world s /\
    password_change_request s1 = false /\
    length (users s1) = length (users s) /\
    In (with_password hash u) (users s1) /\
    (forall x, In x (users s) -> Db.id x <> Db.id u -> In x (users s1)) /\
    AuthServiceClass.changePassword hash' newPassword' s1 =
      (Throw (Error "No password change request found"), s1).
Proof.
  intros Hreq Hop. rewrite changePassword_closed_form, Hreq, Hop.
  eexists. split; [reflexivity|]. cbn [world users password_change_request
    with_password_change_request with_users].
  repeat split.
  - apply List.length_map.
  - rewrite <- set_password_own. apply List.in_map.
    apply List.find_some in Hop. tauto.
  - intros x Hx Hne. rewrite <- (set_password_other (Db.id u) hash x Hne).
    apply List.in_map, Hx.
Qed.

Lemma changePassword_one_shot_X23_witness :
  exists s1,
    AuthServiceClass.changePassword "$argon2id$new" "new"
      (mkStore (sample_world "production" RUNNING "1.0.0" (sessions "a1" "1"))
               [Db.mkUser 1 "admin@example.com" "$argon2id$pw" true;
                Db.mkUser 2 "guest@example.com" "$argon2id$gp" false] 2 true)
      = (Ok "admin@example.com", s1) /\
    world s1 = sample_world "production" RUNNING "1.0.0" (sessions "a1" "1") /\
    password_change_request s1 = false /\
    length (users s1) = 2 /\
    In (Db.mkUser 1 "admin@example.com" "$argon2id$new" true) (users s1) /\
    (forall x,
       In x [Db.mkUser 1 "admin@example.com" "$argon2id$pw" true;
             Db.mkUser 2 "guest@example.com" "$argon2id$gp" false] ->
       Db.id x <> 1 -> In x (users s1)) /\
    AuthServiceClass.changePassword "$argon2id$again" "again" s1 =
      (Throw (Error "No password change request found"), s1).
Proof.
  apply (changePassword_one_shot_X23 "$argon2id$new" "$argon2id$again" "new" "again"
           (mkStore (sample_world "production" RUNNING "1.0.0" (sessions "a1" "1"))
                    [Db.mkUser 1 "admin@example.com" "$argon2id$pw" true;
                     Db.mkUser 2 "guest@example.com" "$argon2id$gp" false] 2 true)
           (Db.mkUser 1 "admin@example.com" "$argon2id$pw" true));
    reflexivity.
Defined.

Lemma find_username_after_change (hash : string) (u : Db.User)
  (l : list Db.User) :
  NoDup (List.map Db.username l) ->
  In u l ->
  List.find (by_username (Db.username u))
            (List.map (set_password (Db.id u) hash) l)
    = Some (with_password hash u).
Proof.
  induction l as [|x l IH]; intros Hnd Hin; [destruct Hin|].
  cbn [List.map] in Hnd. apply NoDup_cons in Hnd as [Hx Hnd].
  cbn [List.map List.find]. unfold by_username at 1.
  replace (Db.username (set_password (Db.id u) hash x)) with (Db.username x)
    by (unfold set_password; destruct (Nat.eqb _ _); reflexivity).
  destruct (String.eqb_spec (Db.username x) (Db.username u)) as [Heq|Hne].
  - destruct Hin as [->|Hin]; [rewrite set_password_own; reflexivity|].
    exfalso. apply Hx. rewrite Heq. apply list_elem_of_In, List.in_map, Hin.
  - destruct Hin as [->|Hin]; [contradiction|]. apply IH; assumption.
Qed.

(** X24: after a password change the new password logs in and a rejected
    one does not. On a table with unique usernames, after [changePassword]
    stored [hash] for the operator [u], a [login] whose username normalises
    to the username of [u] succeeds for the [id] of [u] when
    [argon2.verify] accepts its password for [hash], and throws 'Wrong
    password' when [argon2.verify] answers [false]. *)
Theorem changePassword_then_login_X24 (L : Libraries)
  (hash newPassword v4 : string) (input : UsernamePasswordInput)
  (s : Store) (u : Db.User) :
  table_ok s ->
  password_change_request s = true ->
  List.find Db.operator (users s) = Some u ->
  normalised L (input_username input) = Db.username u ->
  (argon2_verify L hash (input_password input) = Ok true ->
   exists tok s2,
     AuthServiceClass.login L v4 input
       (snd (AuthServiceClass.changePassword hash newPassword s)) = (Ok tok, s2) /\
     payload_id tok = Db.id u) /\
  (argon2_verify L hash (input_password input) = Ok false ->
   AuthServiceClass.login L v4 input
     (snd (AuthServiceClass.changePassword hash newPassword s)) =
   (Throw (Error "Wrong password"),
    snd (AuthServiceClass.changePassword hash newPassword s))).
Proof.
  intros Hok Hreq Hop Hname.
  rewrite changePassword_closed_form, Hreq, Hop. cbn [snd].
  rewrite login_closed_form.
  cbn [users with_password_change_request with_users]. rewrite Hname.
  rewrite (find_username_after_change hash u (users s)
             (usernames_unique s Hok)
             (proj1 (List.find_some _ _ Hop))).
  cbn [Db.password with_password].
  split; intros ->; [|reflexivity].
  eexists _, _. split; reflexivity.
Qed.

Lemma changePassword_then_login_X24_witness :
  (exists tok s2,
     AuthServiceClass.login sample_libraries "b2" (mkInput "Admin@Example.com" "new")
       (snd (AuthServiceClass.changePassword "$argon2id$new" "new"
               (sample_store [Db.mkUser 1 "admin@example.com" "$argon2id$pw" true]
                             1 true))) = (Ok tok, s2) /\
     payload_id tok = 1) /\
  AuthServiceClass.login sample_libraries "b2" (mkInput "Admin@Example.com" "pw")
    (snd (AuthServiceClass.changePassword "$argon2id$new" "new"
            (sample_store [Db.mkUser 1 "admin@example.com" "$argon2id$pw" true]
                          1 true))) =
  (Throw (Error "Wrong password"),
   snd (AuthServiceClass.changePassword "$argon2id$new" "new"
          (sample_store [Db.mkUser 1 "admin@example.com" "$argon2id$pw" true]
                        1 true))).
Proof.
  assert (Hok : table_ok (sample_store
            [Db.mkUser 1 "admin@example.com" "$argon2id$pw" true] 1 true)).
  { constructor; cbn; repeat constructor; apply not_elem_of_nil. }
  split.
  - apply (changePassword_then_login_X24 sample_libraries "$argon2id$new" "new"
             "b2" (mkInput "Admin@Example.com" "new") _
             (Db.mkUser 1 "admin@example.com" "$argon2id$pw" true) Hok);
      reflexivity.
  - apply (changePassword_then_login_X24 sample_libraries "$argon2id$new" "new"
             "b2" (mkInput "Admin@Example.com" "pw") _
             (Db.mkUser 1 "admin@example.com" "$argon2id$pw" true) Hok);
      reflexivity.
Defined.

(** X25: [cancelPasswordChangeRequest] always returns [true] and leaves no
    request behind, whether there was one or not: it changes nothing but
    the file, a second cancel changes nothing at all,
    [checkPasswordChangeRequest] then answers [false], and
    [changePassword] then throws 'No password change request found'. *)
Theorem cancel_request_X25 (hash newPassword : string) (s : Store) :
  fst (AuthServiceClass.cancelPasswordChangeRequest s) = Ok true /\
  snd (AuthServiceClass.cancelPasswordChangeRequest s)
    = with_password_change_request false s /\
  AuthServiceClass.cancelPasswordChangeRequest
    (snd (AuthServiceClass.cancelPasswordChangeRequest s))
    = (Ok true, snd (AuthServiceClass.cancelPasswordChangeRequest s)) /\
  AuthServiceClass.checkPasswordChangeRequest
    (snd (AuthServiceClass.cancelPasswordChangeRequest s))
    = (Ok false, snd (AuthServiceClass.cancelPasswordChangeRequest s)) /\
  AuthServiceClass.changePassword hash newPassword
    (snd (AuthServiceClass.cancelPasswordChangeRequest s))
    = (Throw (Error "No password change request found"),
       snd (AuthServiceClass.cancelPasswordChangeRequest s)).
Proof.
  rewrite changePassword_closed_form, !cancel_closed_form.
  destruct s as [w us n [|]]; cbn; repeat split; reflexivity.
Qed.
